(** * AI-assisted PDF duplicate finder: snippet extraction, fingerprint
      collection, verdict parsing and deletion (aiSearchDupes.py) *)

From Stdlib Require Import ZArith Ascii String List Lia Bool.
From stdpp Require Import base option strings list gmap.
Import ListNotations.

Local Open Scope string_scope.
Local Open Scope list_scope.

(** ** Python string primitives used by the script *)

Definition nl : string := String "010"%char "".

(** [sep.join(l)] *)
Fixpoint join (sep : string) (l : list string) : string :=
  match l with
  | [] => ""
  | x :: rest =>
      match rest with
      | [] => x
      | _ :: _ => x +:+ sep +:+ join sep rest
      end
  end.

(** [l[:n]]: a negative bound counts from the end, [None] keeps the list. *)
Definition slice_to {A} (n : option Z) (l : list A) : list A :=
  match n with
  | None => l
  | Some k =>
      if (0 <=? k)%Z then take (Z.to_nat k) l
      else take (length l - Z.to_nat (- k)) l
  end.

(** [sub in s] *)
Fixpoint contains (sub s : string) : bool :=
  String.prefix sub s ||
  match s with
  | "" => false
  | String _ s' => contains sub s'
  end.

(** Prepend a character to the piece under construction. *)
Definition cons_head (c : ascii) (l : list string) : list string :=
  match l with
  | [] => [String c ""]
  | p :: ps => String c p :: ps
  end.

(** [s.split(sep)] for a non-empty separator: leftmost, non-overlapping
    occurrences. [skip] counts the characters of a matched separator that
    are still to be passed over. *)
Fixpoint split_go (sep : string) (skip : nat) (s : string) : list string :=
  match s with
  | "" => [""]
  | String c s' =>
      match skip with
      | S k => split_go sep k s'
      | O =>
          if String.prefix sep s
          then "" :: split_go sep (String.length sep - 1) s'
          else cons_head c (split_go sep 0 s')
      end
  end.

Definition split (sep s : string) : list string := split_go sep 0 s.

(** [s.rstrip(chars)] with the character set given as a predicate. *)
Fixpoint rstrip_with (p : ascii -> bool) (s : string) : string :=
  match s with
  | "" => ""
  | String c s' =>
      match rstrip_with p s' with
      | "" => if p c then "" else String c ""
      | r => String c r
      end
  end.

Fixpoint lstrip_with (p : ascii -> bool) (s : string) : string :=
  match s with
  | "" => ""
  | String c s' => if p c then lstrip_with p s' else s
  end.

Definition is_quote (c : ascii) : bool := Ascii.eqb c "'"%char.

(** [s.endswith(suffix)] *)
Definition endswith (s suffix : string) : bool :=
  String.prefix (String.rev suffix) (String.rev s).

Section Snippet.

(** The character tables of the regular-expression engine: [\w] and [\s].
    [str.strip()] removes the same whitespace class. *)
Variable word_char : ascii -> bool.
Variable space_char : ascii -> bool.

Definition strip (s : string) : string :=
  rstrip_with space_char (lstrip_with space_char s).

Definition push_word (w : string) (ws : list string) : list string :=
  match w with
  | "" => ws
  | String _ _ => w :: ws
  end.

(** The run of word characters at the start of [s], and the tokens that
    follow it. *)
Fixpoint word_scan (s : string) : string * list string :=
  match s with
  | "" => ("", [])
  | String c s' =>
      let '(w, ws) := word_scan s' in
      if word_char c then (String c w, ws) else ("", push_word w ws)
  end.

(** [re.findall(r'\w+', s)]: the maximal runs of word characters. *)
Definition findall_word (s : string) : list string :=
  let '(w, ws) := word_scan s in push_word w ws.

Definition is_term (c : ascii) : bool :=
  Ascii.eqb c "."%char || Ascii.eqb c "!"%char || Ascii.eqb c "?"%char.

(** [re.split(r'(?<=[.!?])\s+', s)], scanning left to right.
    [prev_term]: the character just before the current position is one of
    [.!?]; [in_sep]: the position is inside a separator that has already
    started. The head of the result is the piece being read. *)
Fixpoint sentence_scan (prev_term in_sep : bool) (s : string) : list string :=
  match s with
  | "" => [""]
  | String c s' =>
      if in_sep then
        if space_char c then sentence_scan false true s'
        else cons_head c (sentence_scan (is_term c) false s')
      else
        if space_char c && prev_term then "" :: sentence_scan false true s'
        else cons_head c (sentence_scan (is_term c) false s')
  end.

Definition split_sentences (s : string) : list string :=
  sentence_scan false false s.

(** [get_text_snippet(text, num_sentences, num_words)] *)
Definition get_text_snippet (text : string) (num_sentences num_words : option Z)
  : string :=
  match num_words with
  | Some n =>
      let words := findall_word text in
      join " " (slice_to (Some n) words)
  | None =>
      let sentences := split_sentences (strip text) in
      join " " (slice_to num_sentences sentences)
  end.

(** Predicates on the results of the two scanners. A token is a non-empty
    run of word characters. *)
Fixpoint word_only (s : string) : bool :=
  match s with
  | "" => true
  | String c s' => word_char c && word_only s'
  end.

Definition is_token (w : string) : bool :=
  match w with
  | "" => false
  | String _ _ => word_only w
  end.

(** [unbroken pt p]: read after a character whose terminator status is
    [pt], the piece [p] holds no place where the splitter would cut. *)
Fixpoint unbroken (prev_term : bool) (p : string) : bool :=
  match p with
  | "" => true
  | String c p' => negb (space_char c && prev_term) && unbroken (is_term c) p'
  end.

(** The terminator status after reading [p]. *)
Fixpoint ends_term (prev_term : bool) (p : string) : bool :=
  match p with
  | "" => prev_term
  | String c p' => ends_term (is_term c) p'
  end.

Definition starts_clear (p : string) : bool :=
  match p with
  | "" => true
  | String c _ => negb (space_char c)
  end.

(** The shape of a list of pieces produced by the splitter: no piece can be
    cut further, every piece but the last ends with a terminator, and every
    piece after the first starts with a character that is not whitespace. *)
Fixpoint pieces_ok (prev_term : bool) (ps : list string) : Prop :=
  match ps with
  | [] => False
  | p :: rest =>
      unbroken prev_term p = true /\
      match rest with
      | [] => True
      | q :: _ =>
          ends_term prev_term p = true /\ starts_clear q = true /\
          pieces_ok false rest
      end
  end.

Definition prepend (p : string) (ps : list string) : list string :=
  match ps with
  | [] => [p]
  | x :: xs => (p +:+ x) :: xs
  end.

End Snippet.

(** ASCII instances of the two character classes (Python's tables
    restricted to code points below 128). *)
Definition ascii_word (c : ascii) : bool :=
  let n := nat_of_ascii c in
  (((48 <=? n) && (n <=? 57)) || ((65 <=? n) && (n <=? 90))
   || ((97 <=? n) && (n <=? 122)) || (n =? 95))%nat.

Definition ascii_space (c : ascii) : bool :=
  let n := nat_of_ascii c in
  (((9 <=? n) && (n <=? 13)) || ((28 <=? n) && (n <=? 32)))%nat.

(** ** Observable effects *)

Inductive level := INFO | WARNING | ERROR.

Inductive event :=
| Log (lvl : level) (msg : string)
| ChatCompletion (system_prompt user_prompt : string)
| OsRemove (path : string).

(** A path of the file table is either removable or makes [os.remove] raise
    [OSError] with the given text (a directory, missing permissions). *)
Inductive node := RegularFile | Unremovable (err : string).

Record world := World { files : gmap string node; trace : list event }.

Inductive outcome := Returned | Raised (e : string).

Definition emit (e : event) (w : world) : world :=
  World (files w) (trace w ++ [e]).

(** The paths [os.remove] was called with, the logged messages of a level,
    and the requests sent to the model, in order. *)
Definition removals (t : list event) : list string :=
  omap (fun e => match e with OsRemove p => Some p | _ => None end) t.

Definition logged (l : level) (t : list event) : list string :=
  omap (fun e =>
          match e, l with
          | Log INFO m, INFO | Log WARNING m, WARNING | Log ERROR m, ERROR => Some m
          | _, _ => None
          end) t.

Definition requests (t : list event) : list string :=
  omap (fun e => match e with ChatCompletion _ u => Some u | _ => None end) t.

(** [os.path.exists] *)
Definition path_exists (w : world) (p : string) : bool :=
  match files w !! p with
  | Some _ => true
  | None => false
  end.

(** [delete_file(file_path)]. [missing_error p] stands for the text of the
    exception [os.remove] raises when [p] does not exist, as the runtime
    renders it. *)
Definition delete_file (missing_error : string -> string) (file_path : string)
    (w : world) : world :=
  let w := emit (OsRemove file_path) w in
  match files w !! file_path with
  | Some RegularFile =>
      emit (Log INFO ("Deleted duplicate file: " +:+ file_path))
           (World (delete file_path (files w)) (trace w))
  | Some (Unremovable e) =>
      emit (Log ERROR ("Error deleting file " +:+ file_path +:+ ": " +:+ e)) w
  | None =>
      emit (Log ERROR ("Error deleting file " +:+ file_path +:+ ": "
                       +:+ missing_error file_path)) w
  end.

(** ** The insertion-ordered dictionary [pdf_snippets] *)

Definition dict := list (string * string).

Fixpoint dict_set (k v : string) (d : dict) : dict :=
  match d with
  | [] => [(k, v)]
  | (k', v') :: d' =>
      if String.eqb k' k then (k', v) :: d' else (k', v') :: dict_set k v d'
  end.

Definition keys (d : dict) : list string := map fst d.

(** ** Lines of the duplicate report *)

(** The two names cut out of a candidate line; [None] stands for the
    [IndexError] of a missing list element. *)
Definition parse_names (line : string) : option (string * string) :=
  let parts := split " and " line in
  p0 ← parts !! 0%nat;
  seg1 ← split "File '" p0 !! 1%nat;
  let file1 := rstrip_with is_quote seg1 in
  p1 ← parts !! 1%nat;
  seg2 ← split "File '" p1 !! 1%nat;
  w ← split " " seg2 !! 0%nat;
  let file2 := rstrip_with is_quote w in
  Some (file1, file2).

Section Run.

Variable word_char : ascii -> bool.
Variable space_char : ascii -> bool.
(** [os.path.basename] *)
Variable basename : string -> string.
(** [glob.glob] over the file table. *)
Variable glob : gmap string node -> string -> list string.
(** [fitz.open(path)[0].get_text()]: the text of the first page, or the
    text of the exception raised on the way. *)
Variable page_text : string -> string + string.
(** [client.chat.completions.create(...).choices[0].message.content] for a
    system and a user message, or the exception of the failed request. *)
Variable chat : string -> string -> string + string.
(** The text of the [OSError] raised by [os.remove] for a missing path. *)
Variable missing_error : string -> string.

(** [extract_with_pymupdf]: the list of snippets and what was logged. *)
Definition extract_with_pymupdf (file_path : string)
    (num_sentences num_words : option Z) : list string * list event :=
  match page_text file_path with
  | inr text =>
      ([get_text_snippet word_char space_char text num_sentences num_words], [])
  | inl e =>
      ([], [Log ERROR ("Failed to extract text from " +:+ file_path
                       +:+ " using PyMuPDF: " +:+ e)])
  end.

Definition extract_and_store_snippet := extract_with_pymupdf.

(** One round of the loop over the futures, in submission order. The
    worker never raises, so [future.result()] always yields a list. A
    worker's own log line is recorded where its result is read; the pool
    may write it earlier, which changes the order of log lines only. *)
Definition collect_step (num_sentences num_words : option Z)
    (acc : dict * list event) (file_path : string) : dict * list event :=
  let '(pdf_snippets, t) := acc in
  let '(snippet, logs) := extract_and_store_snippet file_path num_sentences num_words in
  match snippet with
  | s :: _ => (dict_set file_path s pdf_snippets, t ++ logs)
  | [] =>
      (pdf_snippets,
       t ++ logs ++ [Log WARNING ("Skipping file " +:+ file_path
                                  +:+ " due to extraction errors.")])
  end.

Definition collect (pdf_files : list string)
    (num_sentences num_words : option Z) : dict * list event :=
  fold_left (collect_step num_sentences num_words)
            (List.filter (fun p => endswith p ".pdf") pdf_files) ([], []).

Definition system_message : string :=
  "You are a helpful assistant that identifies duplicate text content from PDFs.".

Definition comparison_prompt (pdf_snippets : dict) : string :=
  fold_left
    (fun acc '(file, snippet) =>
       acc +:+ "File '" +:+ basename file +:+ "': " +:+ snippet +:+ nl)
    pdf_snippets
    ("Here is a list of text snippets from different PDFs. Find any pairs that appear to be duplicates based on content:"
     +:+ nl +:+ nl)
  +:+ nl
  +:+ "Please list which files are duplicates (e.g., 'File A and File B are duplicates').".

(** [check_duplicates_using_ai] *)
Definition check_duplicates_using_ai (pdf_snippets : dict) (w : world)
  : (string + string) * world :=
  let prompt := comparison_prompt pdf_snippets in
  let w := emit (ChatCompletion system_message prompt) w in
  match chat system_message prompt with
  | inl e => (inl e, w)
  | inr content => (inr (strip space_char content), w)
  end.

(** [next((path for path in pdf_snippets.keys()
           if os.path.basename(path) == name), None)] *)
Definition resolve (pdf_snippets : dict) (name : string) : option string :=
  List.find (fun path => String.eqb (basename path) name) (keys pdf_snippets).

(** The body of the loop over the lines of the report. *)
Definition process_line (pdf_snippets : dict) (w : world) (line : string) : world :=
  if contains "are duplicates" line then
    match parse_names line with
    | Some (file1, file2) =>
        let file1_path := resolve pdf_snippets file1 in
        let file2_path := resolve pdf_snippets file2 in
        match file2_path with
        | Some p =>
            if negb (String.eqb p "") && path_exists w p
            then delete_file missing_error p w
            else w
        | None => w
        end
    | None =>
        emit (Log ERROR "Error parsing duplicate report or deleting files: list index out of range") w
    end
  else w.

Definition process_report (pdf_snippets : dict) (report : string) (w : world) : world :=
  fold_left (process_line pdf_snippets) (split nl report) w.

(** [process_pdfs_for_duplicates], started on a file table with an empty
    trace. *)
Definition process_pdfs_for_duplicates (file_pattern : string)
    (num_sentences num_words : option Z) (sleep : Z) (delete_dupes : bool)
    (fs : gmap string node) : outcome * world :=
  let pdf_files := glob fs file_pattern in
  let '(pdf_snippets, logs) := collect pdf_files num_sentences num_words in
  let w := World fs logs in
  match pdf_snippets with
  | _ :: _ =>
      match check_duplicates_using_ai pdf_snippets w with
      | (inl e, w) => (Raised e, w)
      | (inr duplicate_report, w) =>
          let w := emit (Log INFO ("Duplicate Report:" +:+ nl +:+ duplicate_report)) w in
          if delete_dupes
          then (Returned, process_report pdf_snippets duplicate_report w)
          else (Returned, w)
      end
  | [] =>
      (Returned, emit (Log WARNING "No valid snippets to process for duplicates.") w)
  end.

(** What an entry of the mapping records about its document. *)
Definition fingerprint_of (pdf_files : list string)
    (num_sentences num_words : option Z) (entry : string * string) : Prop :=
  In (fst entry) pdf_files /\ endswith (fst entry) ".pdf" = true /\
  exists text, page_text (fst entry) = inr text /\
    snd entry = get_text_snippet word_char space_char text num_sentences num_words.

End Run.

(** ** Derived views used in the statements *)

(** The pairs a report yields: its candidate lines, parsed. *)
Definition duplicate_pairs (report : string) : list (string * string) :=
  omap parse_names (List.filter (contains "are duplicates") (split nl report)).

(** The specification's wording of the extraction, to compare with
    [parse_names]: the text between the first [File '] marker of a segment
    and the next quote. *)
Fixpoint after_first (marker s : string) : option string :=
  if String.prefix marker s
  then Some (String.substring (String.length marker)
                              (String.length s - String.length marker) s)
  else match s with
       | "" => None
       | String _ s' => after_first marker s'
       end.

Fixpoint up_to_quote (s : string) : option string :=
  match s with
  | "" => None
  | String c s' => if is_quote c then Some "" else String c <$> up_to_quote s'
  end.

Definition between_markers (segment : string) : option string :=
  after_first "File '" segment ≫= up_to_quote.

Definition is_log (e : event) : bool :=
  match e with
  | Log _ _ => true
  | _ => false
  end.

(** ** A concrete environment for closed examples *)

(** [posixpath.basename]: what follows the last slash. *)
Fixpoint posix_basename (p : string) : string :=
  match p with
  | "" => ""
  | String c p' =>
      if contains "/" p then posix_basename p' else p
  end.

Definition two_files : gmap string node :=
  <["/d/A.pdf" := RegularFile]> (<["/d/B.pdf" := RegularFile]> ∅).

Definition three_files : gmap string node :=
  <["/d/C.pdf" := RegularFile]> two_files.

Definition report_ab := "File 'A.pdf' and File 'B.pdf' are duplicates.".

Definition report_ba := "File 'B.pdf' and File 'A.pdf' are duplicates.".

Definition report_cb := "File 'C.pdf' and File 'B.pdf' are duplicates.".

Definition report_zb := "File 'Z.pdf' and File 'B.pdf' are duplicates.".

Definition report_plain := "File A.pdf and File B.pdf are duplicates.".

Definition same_text (p : string) : string + string := inr "Hello world. Bye.".

Definition broken_text (p : string) : string + string :=
  inl "cannot open broken document".

Definition blank_text (p : string) : string + string := inr "".

(** CPython's text on POSIX for a missing path that holds no quote and no
    backslash. *)
Definition posix_missing (p : string) : string :=
  "[Errno 2] No such file or directory: '" +:+ p +:+ "'".

(** A run whose directory listing, page texts and model answer are fixed. *)
Definition run_with (listing : list string) (texts : string -> string + string)
    (answer : string) (delete_dupes : bool) (fs : gmap string node) :=
  process_pdfs_for_duplicates ascii_word ascii_space posix_basename
    (fun _ _ => listing) texts (fun _ _ => inr answer) posix_missing
    "/d/*.pdf" (Some 1%Z) None 3 delete_dupes fs.

Definition ab_dict : dict :=
  fst (collect ascii_word ascii_space same_text ["/d/A.pdf"; "/d/B.pdf"] (Some 1%Z) None).

(** ** Report format and occurrences *)

(** [p] occurs in [s]. *)
Definition occurs_in (p s : string) : Prop := exists a b, s = a +:+ p +:+ b.

Fixpoint all_chars (P : ascii -> bool) (s : string) : bool :=
  match s with
  | "" => true
  | String c s' => P c && all_chars P s'
  end.

(** Characters of a file name that the report parser can carry: no blank,
    no quote, no line break. *)
Definition name_char (c : ascii) : bool :=
  negb (Ascii.eqb c " ") && negb (is_quote c) && negb (Ascii.eqb c "010").

(** A line in the format the prompt asks the model for, with the names
    quoted as the prompt lists them, followed by any text. *)
Definition verdict_line (a b rest : string) : string :=
  "File '" +:+ a +:+ "' and File '" +:+ b +:+ "' " +:+ rest.
(** No occurrence of [sep] starts inside [x] when [x] is followed by [y]. *)
Fixpoint unmatched (sep x y : string) : bool :=
  match x with
  | "" => true
  | String _ x' => negb (String.prefix sep (x +:+ y)) && unmatched sep x' y
  end.

Definition blank_led (s : string) : Prop :=
  s = "" \/ exists s', s = String " " s'.

(** The entry the collector makes for a listed path, if any. *)
Definition entry_of (word_char space_char : ascii -> bool)
    (page_text : string -> string + string) (ns nw : option Z) (p : string)
  : option (string * string) :=
  if endswith p ".pdf" then
    match page_text p with
    | inr text => Some (p, get_text_snippet word_char space_char text ns nw)
    | inl _ => None
    end
  else None.

(** ** The renamer (autoRename.py): file names *)

(** [s.replace(old, new)] for a non-empty [old]: leftmost, non-overlapping
    occurrences, with the same bookkeeping as [split_go]. *)
Fixpoint replace_go (old new : string) (skip : nat) (s : string) : string :=
  match s with
  | "" => ""
  | String c s' =>
      match skip with
      | S k => replace_go old new k s'
      | O =>
          if String.prefix old s
          then new +:+ replace_go old new (String.length old - 1) s'
          else String c (replace_go old new 0 s')
      end
  end.

Definition replace (old new s : string) : string := replace_go old new 0 s.

(** [c in set] for a character. *)
Fixpoint has_char (set : string) (c : ascii) : bool :=
  match set with
  | "" => false
  | String d set' => Ascii.eqb d c || has_char set' c
  end.

(** [s.strip(chars)] *)
Definition strip_chars (chars s : string) : string :=
  rstrip_with (has_char chars) (lstrip_with (has_char chars) s).

Definition invalid_chars : list ascii :=
  ["<"; ">"; ":"; "034"; "/"; "\"; "|"; "?"; "*"; "-"; "010"]%char.

(** [sanitize_filename(filename)] *)
Definition sanitize_filename (filename : string) : string :=
  let filename :=
    fold_left (fun filename char => replace (String char "") " - " filename)
              invalid_chars filename in
  let filename := strip_chars " -._" filename in
  replace "  " " " (replace "  " " " (replace "  " " " filename)).

(** The characters of [invalid_chars] other than the dash. *)
Definition reserved_chars : list ascii :=
  ["<"; ">"; ":"; "034"; "/"; "\"; "|"; "?"; "*"; "010"]%char.

Definition head_ok (P : ascii -> bool) (s : string) : bool :=
  match s with
  | "" => true
  | String c _ => negb (P c)
  end.

Fixpoint last_ok (P : ascii -> bool) (s : string) : bool :=
  match s with
  | "" => true
  | String c s' =>
      match s' with
      | "" => negb (P c)
      | String _ _ => last_ok P s'
      end
  end.
(** Characters that [sanitize_filename] replaces or strips. *)
Definition junk_char (c : ascii) : bool :=
  has_char " -._" c || existsb (Ascii.eqb c) invalid_chars.

Definition valid_char (c : ascii) : bool :=
  negb (existsb (Ascii.eqb c) invalid_chars).

(** ** The renamer (autoRename.py): extraction, titles and renaming *)

Inductive rn_event :=
| RnLog (lvl : level) (msg : string)
| RnPrint (msg : string)
| RnChat (model system_prompt user_content : string) (max_tokens : Z)
| RnRename (src dst : string)
| RnRemove (path : string)
| RnStartfile (path : string)
| RnInput (prompt : string)
| RnSleep (seconds : Z).

(** The file table, the lines still to be read from the terminal, and what
    has been observed so far. *)
Record rn_world := RnWorld {
  rn_files : gmap string node;
  rn_stdin : list string;
  rn_trace : list rn_event
}.

Inductive rn_outcome := RnReturned | RnRaised (e : string) | RnExited.

(** What [os.rename] can do: succeed with a new file table, raise
    [FileExistsError], or raise another exception. *)
Inductive rename_result :=
| Renamed (fs : gmap string node)
| FileExists (e : string)
| RenameFailed (e : string).

Definition rn_emit (es : list rn_event) (w : rn_world) : rn_world :=
  RnWorld (rn_files w) (rn_stdin w) (rn_trace w ++ es).

(** The events that touch files or the terminal. *)
Definition touching (e : rn_event) : bool :=
  match e with
  | RnRename _ _ | RnRemove _ | RnStartfile _ | RnInput _ => true
  | _ => false
  end.

(** [if num_words:] *)
Definition truthy (n : option Z) : bool :=
  match n with
  | Some k => negb (k =? 0)%Z
  | None => false
  end.

Definition form_feed : string := String "012" "".

Definition conflict_prompt : string :=
  "Enter 'r' to rename, 's' to skip, 'q' to quit, 'o' to open both files, d to delete current file, e to erase the existent file: ".

Definition eof_error : string := "EOF when reading a line".

Definition renamed_message (original_filename new_filename : string) : string :=
  "File @ " +:+ original_filename +:+ " renamed to  " +:+ nl +:+ " ####"
  +:+ "          " +:+ " " +:+ new_filename.

(** An answer the conflict prompt does not know. *)
Definition unknown_answer (todo : string) : bool :=
  negb (String.eqb todo "r" || String.eqb todo "s" || String.eqb todo "e"
        || String.eqb todo "d" || String.eqb todo "q" || String.eqb todo "o").

Module AutoRename.
Section Renamer.

Variable word_char : ascii -> bool.
Variable space_char : ascii -> bool.
(** [nltk.tokenize.sent_tokenize], or the text of the exception it raises. *)
Variable sent_tokenize : string -> string + list string.
(** [pdfminer.high_level.extract_text] on a path of the file table. *)
Variable pdfminer_text : gmap string node -> string -> string + string.
(** PyMuPDF: the texts of the pages read, and the exception that stopped
    the reading, if any. *)
Variable pymupdf_pages : gmap string node -> string -> list string * option string.
(** The chat completion for a model, a system and a user message and a
    token limit, or the exception of the failed request. *)
Variable chat : string -> string -> string -> Z -> string + string.
(** [str] of a list of strings, as an f-string renders it. *)
Variable repr_list : list string -> string.
Variable path_split : string -> string * string.
Variable path_join : string -> string -> string.
Variable os_rename : gmap string node -> string -> string -> rename_result.
(** [os.remove] on the file table: the text of the exception it raises, or
    the new table. *)
Variable os_remove : gmap string node -> string -> string + gmap string node.
(** [os.startfile]: the text of the exception it raises, if any. *)
Variable os_startfile : gmap string node -> string -> option string.
(** [time.sleep]: the text of the exception it raises for this argument (a
    negative one, or one too large), if any. *)
Variable time_sleep : Z -> option string.
Variable glob : gmap string node -> string -> list string.

(** [get_text_snippet(text, num_sentences, num_words)] *)
Definition get_text_snippet (text : string) (num_sentences num_words : option Z)
  : string + string :=
  match num_words with
  | Some n =>
      let words := findall_word word_char text in
      inr (join " " (slice_to (Some n) words))
  | None =>
      match sent_tokenize text with
      | inr sentences => inr (join " " (slice_to num_sentences sentences))
      | inl e => inl e
      end
  end.

(** [[get_text_snippet(page, ...) for page in pages]] *)
Fixpoint snippets_of (pages : list string) (num_sentences num_words : option Z)
  : string + list string :=
  match pages with
  | [] => inr []
  | page :: rest =>
      match get_text_snippet page num_sentences num_words with
      | inl e => inl e
      | inr s =>
          match snippets_of rest num_sentences num_words with
          | inl e => inl e
          | inr l => inr (s :: l)
          end
      end
  end.

(** The loop of [extract_with_pymupdf]: snippets appended before an
    exception are kept. *)
Fixpoint pymupdf_snippets (pages : list string) (err : option string)
    (num_sentences num_words : option Z) : list string * list rn_event :=
  match pages with
  | [] =>
      match err with
      | Some e => ([], [RnPrint ("Failed to extract text using PyMuPDF: " +:+ e)])
      | None => ([], [])
      end
  | text :: rest =>
      match get_text_snippet text num_sentences num_words with
      | inl e => ([], [RnPrint ("Failed to extract text using PyMuPDF: " +:+ e)])
      | inr s =>
          let '(l, evs) := pymupdf_snippets rest err num_sentences num_words in
          (s :: l, evs)
      end
  end.

Definition extract_with_pymupdf (fs : gmap string node) (file_path : string)
    (num_sentences num_words : option Z) : list string * list rn_event :=
  let '(pages, err) := pymupdf_pages fs file_path in
  pymupdf_snippets pages err num_sentences num_words.

(** [extract_text_snippet(file_path, num_sentences, num_words)] *)
Definition extract_text_snippet (fs : gmap string node) (file_path : string)
    (num_sentences num_words : option Z) : list string * list rn_event :=
  let fallback e :=
    let '(snippets, evs) := extract_with_pymupdf fs file_path num_sentences num_words in
    (snippets,
     RnPrint ("pdfminer.six failed with error: " +:+ e +:+ ". Falling back to PyMuPDF.")
     :: evs) in
  match pdfminer_text fs file_path with
  | inr text =>
      let pages := split form_feed text in
      match snippets_of pages num_sentences num_words with
      | inr snippets => (snippets, [])
      | inl e => fallback e
      end
  | inl e => fallback e
  end.

(** [generate_creative_title]; the two debug lines are below the configured
    log level. *)
Definition generate_creative_title (content : list string)
    (system_prompt additional_prompt : string) (max_tokens : Z) (model : string)
    (w : rn_world) : (string + string) * rn_world :=
  let full_system_prompt :=
    if String.eqb additional_prompt "" then system_prompt
    else system_prompt +:+ " Additional instructions: " +:+ additional_prompt in
  let user_content := "Extracted content:" +:+ nl +:+ repr_list content in
  let w := rn_emit [RnChat model full_system_prompt user_content max_tokens] w in
  match chat model full_system_prompt user_content max_tokens with
  | inl e => (inl e, w)
  | inr title => (inr (strip space_char title), w)
  end.

(** The [while True] loop of [rename_pdf], one round per answer read. *)
Fixpoint conflict_loop (directory original_filename file_path new_file_path : string)
    (answers : list string) (fs : gmap string node) (t : list rn_event)
  : rn_outcome * rn_world :=
  let t := t ++ [RnInput conflict_prompt] in
  match answers with
  | [] => (RnRaised eof_error, RnWorld fs [] t)
  | todo :: rest =>
      if String.eqb todo "r" then
        let t := t ++ [RnInput "Enter new name: "] in
        match rest with
        | [] => (RnRaised eof_error, RnWorld fs [] t)
        | new_filename :: rest' =>
            let new_file_path := path_join directory new_filename in
            let t := t ++ [RnRename file_path new_file_path] in
            match os_rename fs file_path new_file_path with
            | Renamed fs' =>
                (RnReturned,
                 RnWorld fs' rest'
                   (t ++ [RnLog INFO (renamed_message original_filename new_filename)]))
            | FileExists e | RenameFailed e => (RnRaised e, RnWorld fs rest' t)
            end
        end
      else if String.eqb todo "s" then (RnReturned, RnWorld fs rest t)
      else if String.eqb todo "e" then
        let t := t ++ [RnRemove new_file_path] in
        match os_remove fs new_file_path with
        | inl e => (RnRaised e, RnWorld fs rest t)
        | inr fs' =>
            let t := t ++ [RnRename file_path new_file_path] in
            match os_rename fs' file_path new_file_path with
            | Renamed fs'' => (RnReturned, RnWorld fs'' rest t)
            | FileExists e | RenameFailed e => (RnRaised e, RnWorld fs' rest t)
            end
        end
      else if String.eqb todo "d" then
        let t := t ++ [RnRemove file_path] in
        match os_remove fs file_path with
        | inl e => (RnRaised e, RnWorld fs rest t)
        | inr fs' => (RnReturned, RnWorld fs' rest t)
        end
      else if String.eqb todo "q" then (RnExited, RnWorld fs rest t)
      else if String.eqb todo "o" then
        let t := t ++ [RnStartfile new_file_path] in
        match os_startfile fs new_file_path with
        | Some e => (RnRaised e, RnWorld fs rest t)
        | None =>
            let t := t ++ [RnStartfile file_path] in
            match os_startfile fs file_path with
            | Some e => (RnRaised e, RnWorld fs rest t)
            | None =>
                conflict_loop directory original_filename file_path new_file_path
                              rest fs t
            end
        end
      else
        conflict_loop directory original_filename file_path new_file_path rest fs t
  end.

(** [rename_pdf(file_path, new_title, dry_mode)] *)
Definition rename_pdf (file_path new_title : string) (dry_mode : bool)
    (w : rn_world) : rn_outcome * rn_world :=
  let '(directory, original_filename) := path_split file_path in
  let sanitized_title := sanitize_filename new_title in
  let new_filename := sanitized_title +:+ ".pdf" in
  let new_file_path := path_join directory new_filename in
  if dry_mode then
    (RnReturned,
     rn_emit [RnLog INFO ("[DRY MODE] Would rename file " +:+ original_filename
                          +:+ " to " +:+ new_filename)] w)
  else
    let w := rn_emit [RnRename file_path new_file_path] w in
    match os_rename (rn_files w) file_path new_file_path with
    | Renamed fs' =>
        (RnReturned,
         RnWorld fs' (rn_stdin w)
           (rn_trace w ++ [RnLog INFO (renamed_message original_filename new_filename)]))
    | FileExists e =>
        let t := rn_trace w
                 ++ [RnLog ERROR ("Failed to rename file " +:+ original_filename
                                  +:+ " to " +:+ new_filename +:+ ": " +:+ e)] in
        conflict_loop directory original_filename file_path new_file_path
                      (rn_stdin w) (rn_files w) t
    | RenameFailed e => (RnRaised e, w)
    end.

(** [time.sleep(sleep)] at the end of a round. *)
Definition sleep_for (sleep : Z) (w : rn_world) : rn_outcome * rn_world :=
  match time_sleep sleep with
  | Some e => (RnRaised e, w)
  | None => (RnReturned, rn_emit [RnSleep sleep] w)
  end.

(** The body of the loop of [process_pdfs] for one listed path. *)
Definition process_file (num_sentences num_words : option Z)
    (system_prompt additional_prompt : string) (max_tokens : Z) (dry_mode : bool)
    (sleep : Z) (model : string) (file_path : string) (w : rn_world)
  : rn_outcome * rn_world :=
  if endswith file_path ".pdf" then
    let w := rn_emit [RnLog INFO ("Processing file: " +:+ file_path)] w in
    let '(snippet, evs) :=
      if truthy num_words
      then extract_text_snippet (rn_files w) file_path None num_words
      else extract_text_snippet (rn_files w) file_path num_sentences None in
    let w := rn_emit evs w in
    match snippet with
    | _ :: _ =>
        match generate_creative_title snippet system_prompt additional_prompt
                                      max_tokens model w with
        | (inl e, w) => (RnRaised e, w)
        | (inr creative_title, w) =>
            match rename_pdf file_path creative_title dry_mode w with
            | (RnReturned, w) => sleep_for sleep w
            | stopped => stopped
            end
        end
    | [] =>
        sleep_for sleep
          (rn_emit [RnLog WARNING ("Skipping file " +:+ file_path
                                   +:+ " due to extraction errors.")] w)
    end
  else (RnReturned, w).

Fixpoint process_files (num_sentences num_words : option Z)
    (system_prompt additional_prompt : string) (max_tokens : Z) (dry_mode : bool)
    (sleep : Z) (model : string) (paths : list string) (w : rn_world)
  : rn_outcome * rn_world :=
  match paths with
  | [] => (RnReturned, w)
  | file_path :: rest =>
      match process_file num_sentences num_words system_prompt additional_prompt
                         max_tokens dry_mode sleep model file_path w with
      | (RnReturned, w) =>
          process_files num_sentences num_words system_prompt additional_prompt
                        max_tokens dry_mode sleep model rest w
      | stopped => stopped
      end
  end.

(** [process_pdfs]: the listing is taken once, before the loop. *)
Definition process_pdfs (file_pattern : string) (num_sentences num_words : option Z)
    (system_prompt additional_prompt : string) (max_tokens : Z) (dry_mode : bool)
    (sleep : Z) (model : string) (w : rn_world) : rn_outcome * rn_world :=
  process_files num_sentences num_words system_prompt additional_prompt
                max_tokens dry_mode sleep model (glob (rn_files w) file_pattern) w.

End Renamer.
End AutoRename.

(** Closed instances for the renamer. *)
Definition slash_join (directory filename : string) : string :=
  directory +:+ "/" +:+ filename.

Definition always_clashes (fs : gmap string node) (src dst : string) : rename_result :=
  FileExists "[WinError 183] Cannot create a file when that file already exists".

Definition opens_fine (fs : gmap string node) (path : string) : option string := None.

Definition refuses_removal (fs : gmap string node) (path : string)
  : string + gmap string node := inl "[Errno 13] Permission denied".

Definition no_tokenizer (text : string) : string + list string :=
  inl "Resource punkt not found.".

Definition two_page_text (fs : gmap string node) (path : string) : string + string :=
  inr ("Deep learning for cats" +:+ form_feed +:+ "Second page").

Definition no_pages (fs : gmap string node) (path : string)
  : list string * option string := ([], None).

Definition answer_ab : string := verdict_line "A.pdf" "B.pdf" "are duplicates.".

(** What a run may have done to the path [q] of the file table [fs]: left
    it alone, or removed it when it was a regular file handed to
    [os.remove]; and a regular file handed to [os.remove] is gone. *)
Definition path_outcome (fs : gmap string node) (q : string) (w : world) : Prop :=
  (files w !! q = fs !! q \/
   (fs !! q = Some RegularFile /\ files w !! q = None /\
    In q (removals (trace w)))) /\
  (In q (removals (trace w)) -> fs !! q = Some RegularFile -> files w !! q = None).

(** ** Basic facts about traces and the file table *)

Lemma removals_app (t1 t2 : list event) :
  removals (t1 ++ t2) = removals t1 ++ removals t2.
Proof. unfold removals. apply omap_app. Qed.

Lemma requests_app (t1 t2 : list event) :
  requests (t1 ++ t2) = requests t1 ++ requests t2.
Proof. unfold requests. apply omap_app. Qed.

Lemma logged_app (l : level) (t1 t2 : list event) :
  logged l (t1 ++ t2) = logged l t1 ++ logged l t2.
Proof. unfold logged. apply omap_app. Qed.

Lemma logs_have_no_removals (t : list event) :
  forallb is_log t = true -> removals t = [].
Proof.
  induction t as [|e t IH]; simpl; [reflexivity|].
  intros H. apply andb_prop in H as [He Ht].
  destruct e; try discriminate. simpl. auto.
Qed.

Lemma logs_have_no_requests (t : list event) :
  forallb is_log t = true -> requests t = [].
Proof.
  induction t as [|e t IH]; simpl; [reflexivity|].
  intros H. apply andb_prop in H as [He Ht].
  destruct e; try discriminate. simpl. auto.
Qed.

Lemma delete_file_files (missing_error : string -> string) (p : string)
    (w : world) (q : string) :
  q <> p -> files (delete_file missing_error p w) !! q = files w !! q.
Proof.
  intros Hq. unfold delete_file. simpl.
  destruct (files w !! p) as [[|e]|]; simpl; try reflexivity.
  apply lookup_delete_ne. congruence.
Qed.

Lemma delete_file_removals (missing_error : string -> string) (p : string)
    (w : world) :
  removals (trace (delete_file missing_error p w)) = removals (trace w) ++ [p].
Proof.
  unfold delete_file. simpl.
  destruct (files w !! p) as [[|e]|]; simpl;
    rewrite !removals_app; simpl; rewrite app_nil_r; reflexivity.
Qed.

Lemma delete_file_regular (missing_error : string -> string) (p : string)
    (w : world) :
  files w !! p = Some RegularFile ->
  files (delete_file missing_error p w) !! p = None.
Proof.
  intros H. unfold delete_file. simpl. rewrite H. simpl.
  apply lookup_delete_eq.
Qed.

Lemma fold_left_invariant {A B} (f : A -> B -> A) (P : A -> Prop)
    (l : list B) (a : A) :
  P a -> (forall a b, In b l -> P a -> P (f a b)) -> P (fold_left f l a).
Proof.
  revert a. induction l as [|b l IH]; simpl; intros a Ha Hstep; [assumption|].
  apply IH; [apply Hstep; auto|]. intros; apply Hstep; auto.
Qed.

Lemma dict_set_Forall (Q : string * string -> Prop) (k v : string) (d : dict) :
  Forall Q d -> (forall k', k' = k -> Q (k', v)) -> Forall Q (dict_set k v d).
Proof.
  intros Hd Hq. induction Hd as [|[k' v'] d Hx Hd IH]; simpl.
  - constructor; [apply Hq; reflexivity | constructor].
  - destruct (String.eqb k' k) eqn:E.
    + apply String.eqb_eq in E. constructor; [apply Hq; assumption | assumption].
    + constructor; assumption.
Qed.

Lemma dict_set_keys_In (k v : string) (d : dict) (q : string) :
  In q (keys (dict_set k v d)) <-> q = k \/ In q (keys d).
Proof.
  induction d as [|[k' v'] d IH]; simpl.
  - intuition.
  - destruct (String.eqb k' k) eqn:E; simpl.
    + apply String.eqb_eq in E. subst. intuition.
    + rewrite IH. intuition.
Qed.

Lemma dict_set_NoDup (k v : string) (d : dict) :
  List.NoDup (keys d) -> List.NoDup (keys (dict_set k v d)).
Proof.
  induction d as [|[k' v'] d IH]; simpl; intros H.
  - constructor; [intros [] | constructor].
  - inversion H as [|? ? Hn Hd]; subst.
    destruct (String.eqb k' k) eqn:E; simpl.
    + constructor; assumption.
    + constructor; [|apply IH; assumption].
      rewrite dict_set_keys_In. intros [->|Hin]; [|contradiction].
      rewrite String.eqb_refl in E. discriminate.
Qed.

Section RunFacts.

Variable word_char : ascii -> bool.
Variable space_char : ascii -> bool.
Variable basename : string -> string.
Variable glob : gmap string node -> string -> list string.
Variable page_text : string -> string + string.
Variable chat : string -> string -> string + string.
Variable missing_error : string -> string.

Local Abbreviation collect_ := (collect word_char space_char page_text).
Local Abbreviation resolve_ := (resolve basename).
Local Abbreviation process_line_ := (process_line basename missing_error).
Local Abbreviation process_report_ := (process_report basename missing_error).
Local Abbreviation run_ :=
  (process_pdfs_for_duplicates word_char space_char basename glob page_text chat
     missing_error).
Local Abbreviation fingerprint_of_ := (fingerprint_of word_char space_char page_text).

Lemma collect_invariant (pdf_files : list string) (ns nw : option Z) :
  Forall (fingerprint_of_ pdf_files ns nw) (fst (collect_ pdf_files ns nw)) /\
  List.NoDup (keys (fst (collect_ pdf_files ns nw))) /\
  forallb is_log (snd (collect_ pdf_files ns nw)) = true.
Proof.
  unfold collect.
  apply (fold_left_invariant _
    (fun acc => Forall (fingerprint_of_ pdf_files ns nw) (fst acc) /\
                List.NoDup (keys (fst acc)) /\ forallb is_log (snd acc) = true)).
  - simpl. repeat split; constructor.
  - intros [d t] f Hf (Hd & Hnd & Ht). simpl in *.
    apply filter_In in Hf as [Hin Hpdf].
    unfold collect_step, extract_and_store_snippet, extract_with_pymupdf.
    destruct (page_text f) as [e|text] eqn:E; simpl.
    + repeat split; try assumption.
      rewrite forallb_app, Ht. reflexivity.
    + repeat split.
      * apply dict_set_Forall; [assumption|].
        intros k' ->. unfold fingerprint_of; simpl. eauto 6.
      * apply dict_set_NoDup; assumption.
      * rewrite forallb_app, Ht. reflexivity.
Qed.

Lemma collect_keys_nonempty (pdf_files : list string) (ns nw : option Z) (p : string) :
  In p (keys (fst (collect_ pdf_files ns nw))) -> p <> "".
Proof.
  intros Hin ->. destruct (collect_invariant pdf_files ns nw) as (H & _ & _).
  unfold keys in Hin. apply in_map_iff in Hin as ([k v] & Hk & Hin). simpl in Hk. subst k.
  rewrite List.Forall_forall in H. apply H in Hin as (_ & Hpdf & _).
  simpl in Hpdf. discriminate.
Qed.

Lemma resolve_Some (d : dict) (name p : string) :
  resolve_ d name = Some p -> In p (keys d) /\ basename p = name.
Proof.
  unfold resolve. intros H. apply find_some in H as [Hin Heq].
  apply String.eqb_eq in Heq. auto.
Qed.

Lemma resolve_present (d : dict) (name p : string) :
  In p (keys d) -> basename p = name ->
  exists q, resolve_ d name = Some q /\ In q (keys d) /\ basename q = name.
Proof.
  intros Hin Hb. unfold resolve.
  destruct (find _ (keys d)) as [q|] eqn:E.
  - exists q. split; [reflexivity|]. apply find_some in E as [? Heq].
    apply String.eqb_eq in Heq. auto.
  - exfalso. eapply find_none in E; [|exact Hin]. simpl in E.
    rewrite Hb, String.eqb_refl in E. discriminate.
Qed.

(** A line only ever removes a path that is a key of the mapping. *)
Lemma process_line_removals (d : dict) (w : world) (line : string) :
  exists l, removals (trace (process_line_ d w line)) = removals (trace w) ++ l /\
            Forall (fun p => In p (keys d)) l.
Proof.
  unfold process_line.
  destruct (contains _ line); [|exists []; rewrite app_nil_r; auto].
  destruct (parse_names line) as [[file1 file2]|].
  - destruct (resolve_ d file2) as [p|] eqn:E; [|exists []; rewrite app_nil_r; auto].
    destruct (negb (String.eqb p "") && path_exists w p).
    + exists [p]. rewrite delete_file_removals. split; [reflexivity|].
      constructor; [|constructor]. apply resolve_Some in E. tauto.
    + exists []; rewrite app_nil_r; auto.
  - exists []. simpl. rewrite removals_app. simpl. auto.
Qed.

Lemma process_report_removals (d : dict) (report : string) (w : world) :
  Forall (fun p => In p (keys d)) (removals (trace w)) ->
  Forall (fun p => In p (keys d)) (removals (trace (process_report_ d report w))).
Proof.
  unfold process_report. intros H.
  apply (fold_left_invariant _
    (fun w => Forall (fun p => In p (keys d)) (removals (trace w)))); [assumption|].
  intros w' line _ Hw'.
  destruct (process_line_removals d w' line) as (l & -> & Hl).
  apply Forall_app; auto.
Qed.


(** C1. With [delete_dupes] false the run never calls the deletion
    operation and leaves the file table as it found it, whatever the model
    answers and whatever the mapping holds. *)
Theorem no_deletion_when_disabled (pattern : string) (ns nw : option Z)
    (sleep : Z) (fs : gmap string node) :
  removals (trace (snd (run_ pattern ns nw sleep false fs))) = [] /\
  files (snd (run_ pattern ns nw sleep false fs)) = fs.
Proof.
  unfold process_pdfs_for_duplicates, check_duplicates_using_ai.
  destruct (collect_invariant (glob fs pattern) ns nw) as (_ & _ & Hlogs).
  destruct (collect_ (glob fs pattern) ns nw) as [d logs]. simpl in Hlogs.
  apply logs_have_no_removals in Hlogs.
  destruct d as [|entry d]; simpl.
  - rewrite removals_app, Hlogs. split; reflexivity.
  - destruct (chat _ _) as [e|content]; simpl;
      rewrite !removals_app, Hlogs; split; reflexivity.
Qed.

(** C9. Every path handed to the deletion operation during a run is a key
    of the mapping collected in that same run. *)
Theorem deletions_within_batch (pattern : string) (ns nw : option Z)
    (sleep : Z) (delete_dupes : bool) (fs : gmap string node) :
  Forall (fun p => In p (keys (fst (collect_ (glob fs pattern) ns nw))))
         (removals (trace (snd (run_ pattern ns nw sleep delete_dupes fs)))).
Proof.
  unfold process_pdfs_for_duplicates, check_duplicates_using_ai.
  destruct (collect_invariant (glob fs pattern) ns nw) as (_ & _ & Hlogs).
  destruct (collect_ (glob fs pattern) ns nw) as [d logs]. simpl in Hlogs |- *.
  apply logs_have_no_removals in Hlogs.
  destruct d as [|entry d]; simpl.
  - rewrite removals_app, Hlogs. constructor.
  - destruct (chat _ _) as [e|content]; simpl.
    + rewrite removals_app, Hlogs. constructor.
    + destruct delete_dupes; simpl.
      * apply (process_report_removals (entry :: d)). simpl.
        rewrite !removals_app, Hlogs. constructor.
      * rewrite !removals_app, Hlogs. constructor.
Qed.

(** C6. When the collected mapping is empty the run returns after one
    warning: no request is sent to the model, nothing is parsed and nothing
    is deleted. *)
Theorem empty_batch_skips_llm (pattern : string) (ns nw : option Z)
    (sleep : Z) (delete_dupes : bool) (fs : gmap string node) :
  fst (collect_ (glob fs pattern) ns nw) = [] ->
  run_ pattern ns nw sleep delete_dupes fs =
    (Returned,
     World fs (snd (collect_ (glob fs pattern) ns nw)
               ++ [Log WARNING "No valid snippets to process for duplicates."])) /\
  requests (trace (snd (run_ pattern ns nw sleep delete_dupes fs))) = [] /\
  removals (trace (snd (run_ pattern ns nw sleep delete_dupes fs))) = [].
Proof.
  intros Hempty.
  unfold process_pdfs_for_duplicates.
  destruct (collect_invariant (glob fs pattern) ns nw) as (_ & _ & Hlogs).
  destruct (collect_ (glob fs pattern) ns nw) as [d logs]. simpl in *. subst d.
  simpl. split; [reflexivity|].
  rewrite requests_app, removals_app.
  rewrite (logs_have_no_requests _ Hlogs), (logs_have_no_removals _ Hlogs).
  split; reflexivity.
Qed.

Lemma collect_fold_keeps_logs (ns nw : option Z) (l : list string)
    (acc : dict * list event) (ev : event) :
  In ev (snd acc) ->
  In ev (snd (fold_left (collect_step word_char space_char page_text ns nw) l acc)).
Proof.
  revert acc. induction l as [|f l IH]; simpl; intros acc H; [assumption|].
  apply IH. destruct acc as [d t].
  unfold collect_step, extract_and_store_snippet, extract_with_pymupdf.
  destruct (page_text f); simpl in *; apply in_or_app; auto.
Qed.

Lemma collect_fold_warns (ns nw : option Z) (l : list string)
    (acc : dict * list event) (f e : string) :
  In f l -> page_text f = inl e ->
  let logs := snd (fold_left (collect_step word_char space_char page_text ns nw) l acc) in
  In (Log ERROR ("Failed to extract text from " +:+ f +:+ " using PyMuPDF: " +:+ e)) logs /\
  In (Log WARNING ("Skipping file " +:+ f +:+ " due to extraction errors.")) logs.
Proof.
  revert acc. induction l as [|g l IH]; simpl; intros acc Hin He; [contradiction|].
  destruct Hin as [->|Hin]; [|apply IH; assumption].
  destruct acc as [d t].
  split; apply collect_fold_keeps_logs;
    unfold collect_step, extract_and_store_snippet, extract_with_pymupdf;
    rewrite He; simpl; apply in_or_app; right; simpl; auto.
Qed.

(** C5 (amended). Every entry of the collected mapping belongs to a listed
    PDF whose extraction succeeded and holds the snippet computed from its
    first page (which may be empty); a document whose extraction failed has
    no entry, and its failure is logged by the collector, which goes on with
    the remaining files. *)
Theorem collected_entries_are_successful_extractions (pdf_files : list string)
    (ns nw : option Z) :
  Forall (fingerprint_of_ pdf_files ns nw) (fst (collect_ pdf_files ns nw)) /\
  List.NoDup (keys (fst (collect_ pdf_files ns nw))) /\
  (forall path e, page_text path = inl e ->
     ~ In path (keys (fst (collect_ pdf_files ns nw)))) /\
  (forall path e, In path pdf_files -> endswith path ".pdf" = true ->
     page_text path = inl e ->
     In (Log WARNING ("Skipping file " +:+ path +:+ " due to extraction errors."))
        (snd (collect_ pdf_files ns nw))).
Proof.
  destruct (collect_invariant pdf_files ns nw) as (Hall & Hnd & _).
  repeat split; try assumption.
  - intros path e He Hin. unfold keys in Hin.
    apply in_map_iff in Hin as ([k v] & Hk & Hin). simpl in Hk. subst k.
    rewrite List.Forall_forall in Hall. apply Hall in Hin as (_ & _ & text & Ht & _).
    simpl in Ht. congruence.
  - intros path e Hin Hpdf He. unfold collect.
    eapply collect_fold_warns; [|exact He].
    apply filter_In. auto.
Qed.

Lemma process_line_pair (d : dict) (w : world) (line file1 file2 : string) :
  contains "are duplicates" line = true ->
  parse_names line = Some (file1, file2) ->
  process_line_ d w line =
    match resolve_ d file2 with
    | Some p =>
        if negb (String.eqb p "") && path_exists w p
        then delete_file missing_error p w else w
    | None => w
    end.
Proof. intros Hc Hp. unfold process_line. rewrite Hc, Hp. reflexivity. Qed.

(** C3 (amended). When the second name of an extracted pair matches no key
    of the mapping, the pair is dropped: nothing is deleted, nothing is
    logged, and the loop goes on with the following lines. *)
Theorem unresolved_second_name_skips_pair (d : dict) (w : world)
    (line file1 file2 : string) (more : list string) :
  contains "are duplicates" line = true ->
  parse_names line = Some (file1, file2) ->
  resolve_ d file2 = None ->
  process_line_ d w line = w /\
  fold_left (process_line_ d) (line :: more) w = fold_left (process_line_ d) more w.
Proof.
  intros Hc Hp Hr.
  assert (H : process_line_ d w line = w).
  { rewrite (process_line_pair d w line file1 file2 Hc Hp), Hr. reflexivity. }
  split; [assumption|]. simpl. rewrite H. reflexivity.
Qed.

(** C7 (amended). When the target of a resolved pair is no longer in the
    file table, the existence test skips the deletion: the world is left as
    it was, nothing is logged for the pair, and the loop goes on with the
    following lines. [delete_file] itself, called on a missing path,
    returns after logging one error, made of the path and of the text of
    the exception, and changes no file. *)
Theorem absent_target_is_silent_noop (d : dict) (w : world)
    (line file1 file2 p : string) (more : list string) :
  contains "are duplicates" line = true ->
  parse_names line = Some (file1, file2) ->
  resolve_ d file2 = Some p ->
  files w !! p = None ->
  process_line_ d w line = w /\
  fold_left (process_line_ d) (line :: more) w = fold_left (process_line_ d) more w /\
  files (delete_file missing_error p w) = files w /\
  logged ERROR (trace (delete_file missing_error p w)) =
    logged ERROR (trace w)
    ++ ["Error deleting file " +:+ p +:+ ": " +:+ missing_error p].
Proof.
  intros Hc Hp Hr Habsent.
  assert (H : process_line_ d w line = w).
  { rewrite (process_line_pair d w line file1 file2 Hc Hp), Hr.
    unfold path_exists. rewrite Habsent, andb_false_r. reflexivity. }
  split; [assumption|]. split; [simpl; rewrite H; reflexivity|].
  unfold delete_file. simpl. rewrite Habsent. simpl.
  split; [reflexivity|]. rewrite !logged_app. simpl. rewrite app_nil_r. reflexivity.
Qed.

(** C2 (amended). For a pair whose two names both resolve to keys of the
    collected mapping, processing the pair with deletion enabled calls the
    deletion operation on the file of the second name exactly when that
    file still exists, removes it when it is removable, and touches no
    other path; so the file of the first name is left alone by this pair
    whenever the two names differ. *)
Theorem second_file_deleted_first_kept (pdf_files : list string)
    (ns nw : option Z) (w : world) (line file1 file2 p1 p2 : string) :
  contains "are duplicates" line = true ->
  parse_names line = Some (file1, file2) ->
  resolve_ (fst (collect_ pdf_files ns nw)) file1 = Some p1 ->
  resolve_ (fst (collect_ pdf_files ns nw)) file2 = Some p2 ->
  removals (trace (process_line_ (fst (collect_ pdf_files ns nw)) w line)) =
    removals (trace w) ++ (if path_exists w p2 then [p2] else []) /\
  (files w !! p2 = Some RegularFile ->
   files (process_line_ (fst (collect_ pdf_files ns nw)) w line) !! p2 = None) /\
  (forall q, q <> p2 ->
   files (process_line_ (fst (collect_ pdf_files ns nw)) w line) !! q = files w !! q) /\
  (file1 <> file2 ->
   files (process_line_ (fst (collect_ pdf_files ns nw)) w line) !! p1 = files w !! p1).
Proof.
  intros Hc Hp Hr1 Hr2.
  rewrite (process_line_pair _ w line file1 file2 Hc Hp), Hr2.
  apply resolve_Some in Hr1 as [_ Hb1].
  apply resolve_Some in Hr2 as [Hk2 Hb2].
  apply collect_keys_nonempty in Hk2.
  apply String.eqb_neq in Hk2. rewrite Hk2. simpl.
  assert (Hother : forall q, q <> p2 ->
            files (if path_exists w p2 then delete_file missing_error p2 w else w) !! q
            = files w !! q).
  { intros q Hq. destruct (path_exists w p2); [apply delete_file_files; assumption | reflexivity]. }
  repeat split.
  - destruct (path_exists w p2); [apply delete_file_removals | rewrite app_nil_r; reflexivity].
  - intros Hreg. unfold path_exists. rewrite Hreg. apply delete_file_regular. assumption.
  - exact Hother.
  - intros Hne. apply Hother. congruence.
Qed.

(** C4 (amended). The one-line report
    [File 'A.pdf' and File 'B.pdf' are duplicates.], with the names in
    quotes as the parser's [File '] marker requires, splits on [" and "]
    into exactly two segments, yields exactly the pair (A.pdf, B.pdf), each
    name being the text between the first [File '] marker of its segment and
    the next quote, and both names resolve in any mapping that has keys with
    these base names. *)
Theorem quoted_verdict_yields_one_pair (d : dict) (pa pb : string) :
  In pa (keys d) -> basename pa = "A.pdf" ->
  In pb (keys d) -> basename pb = "B.pdf" ->
  split " and " "File 'A.pdf' and File 'B.pdf' are duplicates." =
    ["File 'A.pdf'"; "File 'B.pdf' are duplicates."] /\
  duplicate_pairs "File 'A.pdf' and File 'B.pdf' are duplicates." = [("A.pdf", "B.pdf")] /\
  between_markers "File 'A.pdf'" = Some "A.pdf" /\
  between_markers "File 'B.pdf' are duplicates." = Some "B.pdf" /\
  (exists qa, resolve_ d "A.pdf" = Some qa /\ In qa (keys d) /\ basename qa = "A.pdf") /\
  (exists qb, resolve_ d "B.pdf" = Some qb /\ In qb (keys d) /\ basename qb = "B.pdf").
Proof.
  intros Ha Hba Hb Hbb.
  repeat split; try reflexivity.
  - exact (resolve_present d "A.pdf" pa Ha Hba).
  - exact (resolve_present d "B.pdf" pb Hb Hbb).
Qed.

End RunFacts.

(** ** Snippets *)

Lemma append_cons (c : ascii) (s t : string) :
  String c s +:+ t = String c (s +:+ t).
Proof. reflexivity. Qed.

Lemma append_empty_l (t : string) : "" +:+ t = t.
Proof. reflexivity. Qed.

Lemma append_empty_r (s : string) : s +:+ "" = s.
Proof.
  induction s as [|c s IH]; [reflexivity|].
  rewrite append_cons, IH. reflexivity.
Qed.

Lemma join_cons (sep x : string) (l : list string) :
  l <> [] -> join sep (x :: l) = x +:+ sep +:+ join sep l.
Proof. destruct l; [congruence | reflexivity]. Qed.

Section SnippetFacts.

Variable word_char : ascii -> bool.
Variable space_char : ascii -> bool.

Local Abbreviation word_scan_ := (word_scan word_char).
Local Abbreviation findall_word_ := (findall_word word_char).
Local Abbreviation sentence_scan_ := (sentence_scan space_char).
Local Abbreviation split_sentences_ := (split_sentences space_char).
Local Abbreviation snippet_ := (get_text_snippet word_char space_char).
Local Abbreviation word_only_ := (word_only word_char).
Local Abbreviation is_token_ := (is_token word_char).
Local Abbreviation unbroken_ := (unbroken space_char).
Local Abbreviation starts_clear_ := (starts_clear space_char).
Local Abbreviation pieces_ok_ := (pieces_ok space_char).

(** *** Word tokens *)

Lemma push_word_tokens (w : string) (ws : list string) :
  word_only_ w = true -> Forall (fun t => is_token_ t = true) ws ->
  Forall (fun t => is_token_ t = true) (push_word w ws).
Proof. intros Hw Hws. destruct w; simpl; [assumption | constructor; assumption]. Qed.

Lemma word_scan_tokens (s : string) :
  word_only_ (fst (word_scan_ s)) = true /\
  Forall (fun t => is_token_ t = true) (snd (word_scan_ s)).
Proof.
  induction s as [|c s [IHw IHws]]; simpl; [split; [reflexivity | constructor]|].
  destruct (word_scan_ s) as [w ws]. simpl in *.
  destruct (word_char c) eqn:E; simpl.
  - rewrite E, IHw. auto.
  - split; [reflexivity | apply push_word_tokens; assumption].
Qed.

Lemma findall_word_tokens (s : string) :
  Forall (fun t => is_token_ t = true) (findall_word_ s).
Proof.
  unfold findall_word. destruct (word_scan_tokens s) as [Hw Hws].
  destruct (word_scan_ s) as [w ws]. apply push_word_tokens; assumption.
Qed.

Lemma word_scan_run (w s : string) :
  word_only_ w = true ->
  word_scan_ (w +:+ s) = (w +:+ fst (word_scan_ s), snd (word_scan_ s)).
Proof.
  induction w as [|c w IH]; simpl; intros H.
  - rewrite append_empty_l. destruct (word_scan_ s); reflexivity.
  - apply andb_prop in H as [Hc Hw].
    rewrite append_cons. simpl. rewrite (IH Hw), Hc. reflexivity.
Qed.

Lemma word_scan_gap (c : ascii) (s : string) :
  word_char c = false -> word_scan_ (String c s) = ("", findall_word_ s).
Proof.
  intros H. simpl. unfold findall_word.
  destruct (word_scan_ s). rewrite H. reflexivity.
Qed.

Lemma findall_word_join (ws : list string) :
  word_char " " = false ->
  Forall (fun t => is_token_ t = true) ws ->
  findall_word_ (join " " ws) = ws.
Proof.
  intros Hblank Hws. induction Hws as [|w rest Hw Hrest IH]; [reflexivity|].
  assert (Hwo : word_only_ w = true) by (destruct w; [discriminate | exact Hw]).
  destruct rest as [|r rest].
  - simpl join. unfold findall_word.
    rewrite <- (append_empty_r w) at 1. rewrite (word_scan_run w "" Hwo). simpl.
    rewrite append_empty_r. destruct w; [discriminate | reflexivity].
  - rewrite join_cons by discriminate.
    remember (join " " (r :: rest)) as J.
    unfold findall_word at 1. rewrite (word_scan_run w _ Hwo).
    rewrite append_cons, append_empty_l, (word_scan_gap _ _ Hblank).
    cbn [fst snd]. rewrite append_empty_r, IH.
    destruct w; [discriminate | reflexivity].
Qed.

Lemma slice_to_nonneg {A} (n : Z) (l : list A) :
  (0 <= n)%Z -> slice_to (Some n) l = take (Z.to_nat n) l.
Proof. intros H. unfold slice_to. apply Z.leb_le in H. rewrite H. reflexivity. Qed.

Lemma join_tokens_empty (ws : list string) :
  Forall (fun t => is_token_ t = true) ws -> join " " ws = "" -> ws = [].
Proof.
  intros Hws Hj. destruct Hws as [|w rest Hw _]; [reflexivity|].
  destruct w as [|c w]; [discriminate|].
  destruct rest; [discriminate|]. rewrite join_cons, append_cons in Hj; discriminate.
Qed.

Lemma word_snippet_tokens (text : string) (ns : option Z) (n : Z) :
  word_char " " = false -> (0 <= n)%Z ->
  findall_word_ (snippet_ text ns (Some n)) = take (Z.to_nat n) (findall_word_ text).
Proof.
  intros Hblank Hn. unfold get_text_snippet. rewrite slice_to_nonneg by assumption.
  apply findall_word_join; [assumption|].
  apply Forall_take, findall_word_tokens.
Qed.


(** *** Sentences *)

Lemma pieces_ok_cons_head (pt : bool) (c : ascii) (ps : list string) :
  (space_char c && pt) = false ->
  pieces_ok_ (is_term c) ps -> pieces_ok_ pt (cons_head c ps).
Proof.
  intros Hc H. destruct ps as [|p rest]; [destruct H|].
  destruct H as [Hu Hrest]. simpl. rewrite Hc, Hu. split; [reflexivity | exact Hrest].
Qed.

Lemma sentence_scan_ok (s : string) :
  (forall pt, pieces_ok_ pt (sentence_scan_ pt false s)) /\
  (forall pt, pieces_ok_ false (sentence_scan_ pt true s) /\
              starts_clear_ (hd "" (sentence_scan_ pt true s)) = true).
Proof.
  induction s as [|c s [IHout IHin]]; [simpl; auto|].
  assert (Hnext : forall pt, (space_char c && pt) = false ->
            pieces_ok_ pt (cons_head c (sentence_scan_ (is_term c) false s))).
  { intros pt Hc. apply pieces_ok_cons_head; auto. }
  split; intros pt; simpl.
  - destruct (space_char c && pt) eqn:Hc; [|auto].
    apply andb_prop in Hc as [_ ->].
    destruct (IHin false) as [Hok Hhd].
    destruct (sentence_scan_ false true s) as [|q rest]; [destruct Hok|].
    simpl. auto.
  - destruct (space_char c) eqn:Hc; [apply IHin|].
    split; [apply Hnext; reflexivity|].
    destruct (sentence_scan_ (is_term c) false s); simpl; rewrite Hc; reflexivity.
Qed.

Lemma split_sentences_ok (s : string) : pieces_ok_ false (split_sentences_ s).
Proof. apply sentence_scan_ok. Qed.

Lemma pieces_ok_take (k : nat) (ps : list string) (pt : bool) :
  pieces_ok_ pt ps -> pieces_ok_ pt (take (S k) ps).
Proof.
  revert k pt. induction ps as [|p rest IH]; intros k pt H; [destruct H|].
  destruct H as [Hu Hrest]. destruct rest as [|q rest]; [destruct k; simpl; auto|].
  change (ends_term pt p = true /\ starts_clear_ q = true /\
          pieces_ok_ false (q :: rest)) in Hrest.
  destruct Hrest as (He & Hq & Hok).
  destruct k as [|k]; [simpl; auto|].
  specialize (IH k false Hok).
  change (take (S (S k)) (p :: q :: rest)) with (p :: take (S k) (q :: rest)).
  change (take (S k) (q :: rest)) with (q :: take k rest) in *.
  simpl. auto.
Qed.

Lemma sentence_scan_unbroken (p s : string) (pt : bool) :
  unbroken_ pt p = true ->
  sentence_scan_ pt false (p +:+ s) = prepend p (sentence_scan_ (ends_term pt p) false s).
Proof.
  revert pt. induction p as [|c p IH]; intros pt H.
  - rewrite append_empty_l. simpl.
    destruct (sentence_scan_ pt false s) as [|x xs] eqn:E; [|reflexivity].
    exfalso. pose proof (proj1 (sentence_scan_ok s) pt) as Hok. rewrite E in Hok. exact Hok.
  - simpl in H. apply andb_prop in H as [Hc Hu]. apply negb_true_iff in Hc.
    rewrite append_cons. simpl. rewrite Hc, (IH _ Hu).
    destruct (sentence_scan_ (ends_term (is_term c) p) false s); reflexivity.
Qed.

Lemma sentence_scan_resume (s : string) (pt : bool) :
  starts_clear_ s = true -> sentence_scan_ pt true s = sentence_scan_ false false s.
Proof.
  destruct s as [|c s]; [reflexivity|]. simpl. intros H.
  apply negb_true_iff in H. rewrite H. reflexivity.
Qed.

Lemma join_starts_clear (ps : list string) :
  pieces_ok_ false ps -> starts_clear_ (hd "" ps) = true ->
  starts_clear_ (join " " ps) = true.
Proof.
  destruct ps as [|p rest]; [intros []|]. intros [_ Hrest] Hhd. simpl in Hhd.
  destruct rest as [|q rest]; [exact Hhd|].
  rewrite join_cons by discriminate.
  destruct p as [|c p]; [|exact Hhd].
  change (ends_term false "" = true /\ starts_clear_ q = true /\
          pieces_ok_ false (q :: rest)) in Hrest.
  destruct Hrest as [He _]. discriminate.
Qed.

Lemma sentence_scan_join (ps : list string) (pt : bool) :
  space_char " " = true ->
  pieces_ok_ pt ps -> sentence_scan_ pt false (join " " ps) = ps.
Proof.
  intros Hblank. revert pt. induction ps as [|p rest IH]; intros pt H; [destruct H|].
  destruct H as [Hu Hrest]. destruct rest as [|q rest].
  - simpl join. rewrite <- (append_empty_r p) at 1.
    rewrite (sentence_scan_unbroken p "" pt Hu). simpl. rewrite append_empty_r. reflexivity.
  - change (ends_term pt p = true /\ starts_clear_ q = true /\
            pieces_ok_ false (q :: rest)) in Hrest.
    destruct Hrest as (He & Hq & Hok).
    rewrite join_cons by discriminate.
    remember (join " " (q :: rest)) as J.
    rewrite (sentence_scan_unbroken p _ pt Hu), He.
    rewrite append_cons, append_empty_l. simpl. rewrite Hblank. simpl.
    rewrite sentence_scan_resume, append_empty_r.
    + rewrite (IH false Hok). reflexivity.
    + subst J. apply join_starts_clear; assumption.
Qed.

Lemma sentence_snippet_pieces (text : string) (k : nat) :
  space_char " " = true ->
  split_sentences_ (snippet_ text (Some (Z.of_nat (S k))) None) =
    take (S k) (split_sentences_ (strip space_char text)).
Proof.
  intros Hblank. unfold get_text_snippet.
  rewrite slice_to_nonneg by lia. rewrite Nat2Z.id.
  apply sentence_scan_join; [assumption|].
  apply pieces_ok_take, split_sentences_ok.
Qed.

Lemma split_sentences_head (c : ascii) (s : string) :
  exists p rest, split_sentences_ (String c s) = String c p :: rest.
Proof.
  unfold split_sentences. simpl. rewrite andb_false_r.
  destruct (sentence_scan_ (is_term c) false s) as [|p rest]; simpl; eauto.
Qed.

Lemma join_head_nonempty (c : ascii) (p : string) (rest : list string) :
  join " " (String c p :: rest) <> "".
Proof.
  destruct rest; [discriminate|]. rewrite join_cons, append_cons; discriminate.
Qed.

(** C8 (amended). For a count [n >= 0]: the word-count snippet holds at
    most [n] word tokens; the sentence-count snippet is empty or splits into
    at most [n] sentences; an empty text gives an empty snippet under both
    policies; and the snippet is empty exactly when [n] is 0 or the text
    has no word token (word count), respectively is empty once stripped of
    surrounding whitespace (sentence count). *)
Theorem snippet_bounds (text : string) (ns : option Z) (n : Z) :
  word_char " " = false -> space_char " " = true -> (0 <= n)%Z ->
  (Z.of_nat (length (findall_word_ (snippet_ text ns (Some n)))) <= n)%Z /\
  (snippet_ text (Some n) None = "" \/
   (Z.of_nat (length (split_sentences_ (snippet_ text (Some n) None))) <= n)%Z) /\
  (snippet_ "" ns (Some n) = "" /\ snippet_ "" (Some n) None = "") /\
  (snippet_ text ns (Some n) = "" <-> n = 0%Z \/ findall_word_ text = []) /\
  (snippet_ text (Some n) None = "" <-> n = 0%Z \/ strip space_char text = "").
Proof.
  intros Hword Hspace Hn.
  assert (Hwords : snippet_ text ns (Some n) = ""
                   <-> n = 0%Z \/ findall_word_ text = []).
  { unfold get_text_snippet. rewrite slice_to_nonneg by assumption. split.
    - intros Hj. apply join_tokens_empty in Hj; [|apply Forall_take, findall_word_tokens].
      destruct (Z.to_nat n) eqn:Ek; [left; lia|].
      destruct (findall_word_ text); [right; reflexivity | discriminate].
    - intros [-> | ->]; [reflexivity|]. rewrite take_nil. reflexivity. }
  assert (Hsents : forall t, get_text_snippet word_char space_char t (Some n) None = ""
                   <-> n = 0%Z \/ strip space_char t = "").
  { intros t. unfold get_text_snippet. rewrite slice_to_nonneg by assumption. split.
    - intros Hj. destruct (Z.to_nat n) as [|k] eqn:Ek; [left; lia|]. right.
      destruct (strip space_char t) as [|c s]; [reflexivity|].
      destruct (split_sentences_head c s) as (p & rest & E). rewrite E in Hj.
      exfalso. exact (join_head_nonempty c p (take k rest) Hj).
    - intros [-> | ->]; [reflexivity|].
      destruct (Z.to_nat n) as [|[|k]]; reflexivity. }
  repeat split.
  - rewrite word_snippet_tokens by assumption. rewrite length_take. lia.
  - destruct (Z.to_nat n) as [|k] eqn:Ek.
    + left. apply Hsents. left. lia.
    + right. replace n with (Z.of_nat (S k)) by lia.
      rewrite sentence_snippet_pieces by assumption. rewrite length_take. lia.
  - unfold get_text_snippet. rewrite slice_to_nonneg by assumption.
    change (findall_word_ "") with (@nil string). rewrite take_nil. reflexivity.
  - apply Hsents. right. reflexivity.
  - apply Hwords.
  - apply Hwords.
  - apply Hsents.
  - apply Hsents.
Qed.

(** C10. Once a word count is given, the snippet is the first words of the
    text whatever the sentence count is. *)
Theorem word_count_overrides_sentence_count (text : string)
    (num_sentences other : option Z) (num_words : Z) :
  snippet_ text num_sentences (Some num_words) =
    snippet_ text other (Some num_words) /\
  snippet_ text num_sentences (Some num_words) =
    join " " (slice_to (Some num_words) (findall_word_ text)).
Proof. split; reflexivity. Qed.

End SnippetFacts.

(** ** Closed instances *)

Lemma empty_batch_skips_llm_witness :
  fst (collect ascii_word ascii_space broken_text ["/d/broken.pdf"] (Some 1%Z) None) = [] /\
  requests (trace (snd (run_with ["/d/broken.pdf"] broken_text report_ab true two_files))) = [] /\
  removals (trace (snd (run_with ["/d/broken.pdf"] broken_text report_ab true two_files))) = [].
Proof.
  split; [reflexivity|].
  apply (empty_batch_skips_llm ascii_word ascii_space posix_basename
           (fun _ _ => ["/d/broken.pdf"]) broken_text (fun _ _ => inr report_ab)
           posix_missing "/d/*.pdf" (Some 1%Z) None 3%Z true two_files).
  reflexivity.
Defined.

Lemma unresolved_second_name_skips_pair_witness :
  resolve posix_basename ab_dict "Z.pdf" = None /\
  process_line posix_basename posix_missing ab_dict (World two_files [])
    "File 'A.pdf' and File 'Z.pdf' are duplicates." = World two_files [].
Proof.
  split; [reflexivity|].
  apply (unresolved_second_name_skips_pair posix_basename posix_missing ab_dict (World two_files [])
           "File 'A.pdf' and File 'Z.pdf' are duplicates." "A.pdf" "Z.pdf" []);
    reflexivity.
Defined.

Lemma absent_target_is_silent_noop_witness :
  resolve posix_basename ab_dict "B.pdf" = Some "/d/B.pdf" /\
  process_line posix_basename posix_missing ab_dict (World (delete "/d/B.pdf" two_files) []) report_ab
    = World (delete "/d/B.pdf" two_files) [].
Proof.
  split; [reflexivity|].
  apply (absent_target_is_silent_noop posix_basename posix_missing ab_dict
           (World (delete "/d/B.pdf" two_files) []) report_ab "A.pdf" "B.pdf" "/d/B.pdf" []);
    reflexivity.
Defined.

Lemma second_file_deleted_first_kept_witness :
  parse_names report_ab = Some ("A.pdf", "B.pdf") /\
  files (process_line posix_basename posix_missing ab_dict (World two_files []) report_ab) !! "/d/B.pdf" = None /\
  files (process_line posix_basename posix_missing ab_dict (World two_files []) report_ab) !! "/d/A.pdf"
    = Some RegularFile.
Proof.
  split; [reflexivity|].
  destruct (second_file_deleted_first_kept ascii_word ascii_space posix_basename same_text
              posix_missing ["/d/A.pdf"; "/d/B.pdf"] (Some 1%Z) None (World two_files []) report_ab
              "A.pdf" "B.pdf" "/d/A.pdf" "/d/B.pdf"
              eq_refl eq_refl eq_refl eq_refl) as (_ & Hgone & _ & Hkept).
  split.
  - apply Hgone. reflexivity.
  - unfold ab_dict. rewrite Hkept; [reflexivity | discriminate].
Defined.

Lemma quoted_verdict_yields_one_pair_witness :
  In "/d/A.pdf" (keys ab_dict) /\ In "/d/B.pdf" (keys ab_dict) /\
  duplicate_pairs "File 'A.pdf' and File 'B.pdf' are duplicates." = [("A.pdf", "B.pdf")].
Proof.
  assert (Ha : In "/d/A.pdf" (keys ab_dict)) by (left; reflexivity).
  assert (Hb : In "/d/B.pdf" (keys ab_dict)) by (right; left; reflexivity).
  split; [exact Ha|]. split; [exact Hb|].
  exact (proj1 (proj2 (quoted_verdict_yields_one_pair posix_basename ab_dict
                         "/d/A.pdf" "/d/B.pdf" Ha eq_refl Hb eq_refl))).
Defined.

Lemma snippet_bounds_witness :
  ascii_word " " = false /\ ascii_space " " = true /\
  (Z.of_nat (length (findall_word ascii_word
     (get_text_snippet ascii_word ascii_space "Hi there.  How are you? Fine." None (Some 2%Z))))
   <= 2)%Z.
Proof.
  split; [reflexivity|]. split; [reflexivity|].
  apply (snippet_bounds ascii_word ascii_space "Hi there.  How are you? Fine." None 2%Z);
    [reflexivity | reflexivity | lia].
Defined.

(** C2, as stated, fails: a report naming the same two files in both
    orders has both pairs resolved, and the file named first in the first
    pair is removed by the second. *)
Lemma first_file_of_a_pair_deleted :
  let answer := report_ab +:+ nl +:+ report_ba in
  let r := run_with ["/d/A.pdf"; "/d/B.pdf"] same_text answer true two_files in
  duplicate_pairs answer = [("A.pdf", "B.pdf"); ("B.pdf", "A.pdf")] /\
  resolve posix_basename ab_dict "A.pdf" = Some "/d/A.pdf" /\
  resolve posix_basename ab_dict "B.pdf" = Some "/d/B.pdf" /\
  removals (trace (snd r)) = ["/d/B.pdf"; "/d/A.pdf"] /\
  files (snd r) !! "/d/A.pdf" = None.
Proof. vm_compute. repeat split; reflexivity. Qed.

(** C3, as stated, fails: the first name matches no key, yet the second
    file is removed, and no error is logged. *)
Lemma unresolved_first_name_still_deletes :
  let r := run_with ["/d/A.pdf"; "/d/B.pdf"] same_text report_zb true two_files in
  duplicate_pairs report_zb = [("Z.pdf", "B.pdf")] /\
  resolve posix_basename ab_dict "Z.pdf" = None /\
  removals (trace (snd r)) = ["/d/B.pdf"] /\
  files (snd r) !! "/d/B.pdf" = None /\
  logged ERROR (trace (snd r)) = [].
Proof. vm_compute. repeat split; reflexivity. Qed.

(** C4, as stated, fails: without quotes around the names the line has no
    [File '] marker, the extraction raises, and no pair comes out. *)
Lemma unquoted_verdict_yields_no_pair :
  let r := run_with ["/d/A.pdf"; "/d/B.pdf"] same_text report_plain true two_files in
  contains "are duplicates" report_plain = true /\
  parse_names report_plain = None /\
  duplicate_pairs report_plain = [] /\
  removals (trace (snd r)) = [] /\
  logged ERROR (trace (snd r)) =
    ["Error parsing duplicate report or deleting files: list index out of range"].
Proof. vm_compute. repeat split; reflexivity. Qed.

(** C5, as stated, fails: a document whose first page has no text is
    extracted without error and is mapped to the empty snippet. *)
Lemma blank_page_maps_to_empty_snippet :
  collect ascii_word ascii_space blank_text ["/d/blank.pdf"] (Some 1%Z) None
    = ([("/d/blank.pdf", "")], []).
Proof. reflexivity. Qed.

(** C7, as stated, fails: the second pair targets a file the first pair has
    already removed; the existence test skips it and the log holds nothing
    about that pair. *)
Lemma absent_target_is_not_logged :
  let answer := report_ab +:+ nl +:+ report_cb in
  let r := run_with ["/d/A.pdf"; "/d/B.pdf"; "/d/C.pdf"] same_text answer true three_files in
  duplicate_pairs answer = [("A.pdf", "B.pdf"); ("C.pdf", "B.pdf")] /\
  removals (trace (snd r)) = ["/d/B.pdf"] /\
  logged INFO (trace (snd r)) =
    ["Duplicate Report:" +:+ nl +:+ answer; "Deleted duplicate file: /d/B.pdf"] /\
  logged WARNING (trace (snd r)) = [] /\
  logged ERROR (trace (snd r)) = [].
Proof. vm_compute. repeat split; reflexivity. Qed.

(** C8, as stated, fails: a text without word characters, or of whitespace
    only, is not empty but its snippet is; and a negative count keeps more
    tokens than the count. *)
Lemma empty_snippet_of_nonempty_text :
  get_text_snippet ascii_word ascii_space "?!" None (Some 5%Z) = "" /\
  get_text_snippet ascii_word ascii_space " " (Some 1%Z) None = "" /\
  "?!" <> "" /\ " " <> "" /\
  findall_word ascii_word
    (get_text_snippet ascii_word ascii_space "a b c" None (Some (-1)%Z)) = ["a"; "b"].
Proof. repeat split; try reflexivity; discriminate. Qed.

(** * Further properties *)

(** ** Strings: prefixes, occurrences, splitting *)

Lemma append_assoc (a b c : string) : (a +:+ b) +:+ c = a +:+ (b +:+ c).
Proof.
  induction a as [|x a IH]; [reflexivity|].
  rewrite !append_cons, IH. reflexivity.
Qed.

Lemma prefix_empty (s : string) : String.prefix "" s = true.
Proof. destruct s; reflexivity. Qed.

Lemma prefix_cons (a b : ascii) (p s : string) :
  String.prefix (String a p) (String b s) =
    if Ascii.eqb a b then String.prefix p s else false.
Proof.
  simpl. destruct (ascii_dec a b) as [->|Hne].
  - rewrite Ascii.eqb_refl. reflexivity.
  - apply Ascii.eqb_neq in Hne. rewrite Hne. reflexivity.
Qed.

Lemma prefix_true_iff (p s : string) :
  String.prefix p s = true <-> exists t, s = p +:+ t.
Proof.
  revert s. induction p as [|a p IH]; intros s.
  - rewrite prefix_empty. split; [intros _; exists s; reflexivity | reflexivity].
  - destruct s as [|b s].
    + split; [discriminate | intros [t Ht]; rewrite append_cons in Ht; discriminate].
    + rewrite prefix_cons. destruct (Ascii.eqb a b) eqn:E.
      * apply Ascii.eqb_eq in E. subst b. rewrite IH.
        split; intros [t Ht]; exists t; rewrite append_cons in *; congruence.
      * apply Ascii.eqb_neq in E.
        split; [discriminate | intros [t Ht]; rewrite append_cons in Ht; congruence].
Qed.

Lemma contains_true_iff (p s : string) :
  contains p s = true <-> occurs_in p s.
Proof.
  unfold occurs_in. induction s as [|c s IH].
  - change (contains p "") with (String.prefix p "" || false).
    rewrite orb_false_r, prefix_true_iff. split.
    + intros [t Ht]. exists "", t. exact Ht.
    + intros (a & b & H). destruct a as [|x a]; [exists b; exact H|].
      rewrite append_cons in H. discriminate.
  - change (contains p (String c s))
      with (String.prefix p (String c s) || contains p s).
    rewrite orb_true_iff, IH, prefix_true_iff. split.
    + intros [[t Ht] | (a & b & H)].
      * exists "", t. exact Ht.
      * exists (String c a), b. rewrite append_cons, H. reflexivity.
    + intros (a & b & H). destruct a as [|x a].
      * left. exists b. exact H.
      * right. rewrite append_cons in H. injection H as -> H. eauto.
Qed.

Lemma occurs_in_trans (p q s : string) :
  occurs_in p q -> occurs_in q s -> occurs_in p s.
Proof.
  intros (a & b & ->) (a' & b' & ->).
  exists (a' +:+ a), (b +:+ b'). rewrite !append_assoc. reflexivity.
Qed.

Lemma split_go_cons (sep : string) (k : nat) (c : ascii) (s : string) :
  split_go sep k (String c s) =
    match k with
    | S k' => split_go sep k' s
    | O => if String.prefix sep (String c s)
           then "" :: split_go sep (String.length sep - 1) s
           else cons_head c (split_go sep 0 s)
    end.
Proof. reflexivity. Qed.

Lemma split_go_pieces (sep s : string) :
  (exists p rest t, split_go sep 0 s = p :: rest /\ s = p +:+ t) /\
  (forall k p, In p (split_go sep k s) -> occurs_in p s).
Proof.
  induction s as [|c s [(p0 & rest0 & t0 & Hhd & Hpre) IHall]].
  - split; [exists "", [], ""; auto|].
    intros k p. simpl. intros [<-|[]]. exists "", "". reflexivity.
  - assert (Hup : forall p, occurs_in p s -> occurs_in p (String c s)).
    { intros p (a & b & ->). exists (String c a), b. reflexivity. }
    split.
    + rewrite split_go_cons. destruct (String.prefix sep (String c s)).
      * exists "", (split_go sep (String.length sep - 1) s), (String c s). auto.
      * rewrite Hhd. simpl. exists (String c p0), rest0, t0.
        split; [reflexivity|]. rewrite append_cons, <- Hpre. reflexivity.
    + intros k p. rewrite split_go_cons. destruct k as [|k].
      * destruct (String.prefix sep (String c s)).
        -- intros [<-|Hin]; [exists "", (String c s); reflexivity|]. eauto.
        -- rewrite Hhd. simpl. intros [<-|Hin].
           ++ exists "", t0. rewrite append_empty_l, append_cons, <- Hpre. reflexivity.
           ++ apply Hup, (IHall 0). rewrite Hhd. right. exact Hin.
      * eauto.
Qed.

Lemma split_pieces_occur (sep s p : string) :
  In p (split sep s) -> occurs_in p s.
Proof. apply split_go_pieces. Qed.

Lemma split_go_nonempty (sep : string) (k : nat) (s : string) :
  split_go sep k s <> [].
Proof.
  revert k. induction s as [|c s IH]; intros k; [discriminate|].
  rewrite split_go_cons. destruct k; [|apply IH].
  destruct (String.prefix sep (String c s)); [discriminate|].
  destruct (split_go sep 0 s); discriminate.
Qed.

Lemma split_go_skip (sep u s : string) :
  split_go sep (String.length u) (u +:+ s) = split_go sep 0 s.
Proof.
  induction u as [|c u IH]; [reflexivity|].
  rewrite append_cons. simpl String.length. rewrite split_go_cons. exact IH.
Qed.

Lemma split_match (sep : string) (c : ascii) (s : string) :
  split (String c sep) (String c sep +:+ s) = "" :: split (String c sep) s.
Proof.
  unfold split. rewrite append_cons, split_go_cons, <- append_cons.
  assert (H : String.prefix (String c sep) (String c sep +:+ s) = true).
  { apply prefix_true_iff. eauto. }
  rewrite H.
  replace (String.length (String c sep) - 1) with (String.length sep)
    by (simpl; lia).
  rewrite split_go_skip. reflexivity.
Qed.

Lemma unmatched_cons (sep : string) (c : ascii) (x y : string) :
  unmatched sep (String c x) y =
    negb (String.prefix sep (String c x +:+ y)) && unmatched sep x y.
Proof. reflexivity. Qed.

Lemma split_run (sep x y : string) :
  unmatched sep x y = true ->
  split sep (x +:+ y) = prepend x (split sep y).
Proof.
  unfold split. induction x as [|c x IH]; intros H.
  - rewrite append_empty_l. destruct (split_go sep 0 y) eqn:E; [|reflexivity].
    destruct (split_go_nonempty _ _ _ E).
  - rewrite unmatched_cons in H. apply andb_prop in H as [Hc Hx].
    apply negb_true_iff in Hc.
    rewrite append_cons in *. rewrite split_go_cons, Hc, (IH Hx).
    destruct (split_go sep 0 y) eqn:E; [destruct (split_go_nonempty _ _ _ E)|].
    reflexivity.
Qed.

Lemma unmatched_app (sep x1 x2 y : string) :
  unmatched sep (x1 +:+ x2) y =
    unmatched sep x1 (x2 +:+ y) && unmatched sep x2 y.
Proof.
  induction x1 as [|c x1 IH]; [reflexivity|].
  rewrite append_cons, !unmatched_cons, IH, <- append_cons, append_assoc.
  rewrite andb_assoc. reflexivity.
Qed.

Lemma unmatched_first_char (c0 : ascii) (sep x y : string) :
  all_chars (fun c => negb (Ascii.eqb c0 c)) x = true ->
  unmatched (String c0 sep) x y = true.
Proof.
  induction x as [|c x IH]; [reflexivity|]. simpl all_chars. intros H.
  apply andb_prop in H as [Hc Hx]. rewrite unmatched_cons, (IH Hx), andb_true_r.
  rewrite append_cons, prefix_cons. apply negb_true_iff in Hc. rewrite Hc. reflexivity.
Qed.

Lemma all_chars_app (P : ascii -> bool) (x y : string) :
  all_chars P (x +:+ y) = all_chars P x && all_chars P y.
Proof.
  induction x as [|c x IH]; [reflexivity|].
  rewrite append_cons. simpl. rewrite IH, andb_assoc. reflexivity.
Qed.

Lemma all_chars_weaken (P Q : ascii -> bool) (x : string) :
  (forall c, P c = true -> Q c = true) -> all_chars P x = true -> all_chars Q x = true.
Proof.
  intros HPQ. induction x as [|c x IH]; [reflexivity|]. simpl. intros H.
  apply andb_prop in H as [Hc Hx]. rewrite (HPQ c Hc), (IH Hx). reflexivity.
Qed.

Lemma name_char_not_blank (c : ascii) :
  name_char c = true -> negb (Ascii.eqb " " c) = true.
Proof.
  unfold name_char. intros H. apply andb_prop in H as [H _]. apply andb_prop in H as [H _].
  rewrite Ascii.eqb_sym. exact H.
Qed.

Lemma name_char_not_quote (c : ascii) : name_char c = true -> is_quote c = false.
Proof.
  unfold name_char. intros H. apply andb_prop in H as [H _]. apply andb_prop in H as [_ H].
  apply negb_true_iff in H. exact H.
Qed.

Lemma name_char_not_newline (c : ascii) :
  name_char c = true -> negb (Ascii.eqb "010" c) = true.
Proof.
  unfold name_char. intros H. apply andb_prop in H as [_ H].
  rewrite Ascii.eqb_sym. exact H.
Qed.

(** The marker [File '] cannot start inside a name that is followed by a
    quote. *)
Lemma marker_prefix_false (x u : string) :
  all_chars name_char x = true ->
  String.prefix "File '" (x +:+ String "'" u) = false.
Proof.
  intros H.
  destruct x as [|c1 [|c2 [|c3 [|c4 [|c5 x]]]]];
    rewrite ?append_cons, ?append_empty_l, ?prefix_cons;
    repeat match goal with
           | |- (if Ascii.eqb ?a ?b then _ else false) = false =>
               destruct (Ascii.eqb a b) eqn:?; [|reflexivity]
           end;
    try reflexivity; try discriminate.
  exfalso.
  repeat match goal with
         | E : Ascii.eqb _ _ = true |- _ => apply Ascii.eqb_eq in E; subst
         end.
  simpl in H. discriminate.
Qed.

Lemma unmatched_marker (x u : string) :
  all_chars name_char x = true -> unmatched "File '" x (String "'" u) = true.
Proof.
  induction x as [|c x IH]; [reflexivity|]. intros H.
  change (unmatched "File '" (String c x) (String "'" u))
    with (negb (String.prefix "File '" (String c x +:+ String "'" u))
          && unmatched "File '" x (String "'" u)).
  rewrite (marker_prefix_false _ _ H). simpl in H. apply andb_prop in H as [_ Hx].
  rewrite (IH Hx). reflexivity.
Qed.

Lemma rstrip_quote_name (x : string) :
  all_chars name_char x = true -> rstrip_with is_quote (x +:+ "'") = x.
Proof.
  induction x as [|c x IH]; [reflexivity|]. intros H.
  simpl in H. apply andb_prop in H as [Hc Hx].
  rewrite append_cons.
  change (rstrip_with is_quote (String c (x +:+ "'")))
    with (match rstrip_with is_quote (x +:+ "'") with
          | "" => if is_quote c then "" else String c ""
          | String _ _ as r => String c r
          end).
  rewrite (IH Hx).
  destruct x; [|reflexivity]. rewrite (name_char_not_quote _ Hc). reflexivity.
Qed.

Lemma split_hd_blank_led (sep s : string) :
  blank_led s -> exists p rest, split sep s = p :: rest /\ blank_led p.
Proof.
  unfold split. intros [->|[s' ->]]; [exists "", []; split; [reflexivity | left; reflexivity]|].
  rewrite split_go_cons. destruct (String.prefix sep (String " " s')).
  - eexists _, _. split; [reflexivity | left; reflexivity].
  - destruct (split_go sep 0 s') as [|p ps] eqn:E; [destruct (split_go_nonempty _ _ _ E)|].
    exists (String " " p), ps. split; [reflexivity | right; eauto].
Qed.

Lemma split_blank_hd (s : string) :
  blank_led s -> exists rest, split " " s = "" :: rest.
Proof.
  unfold split. intros [->|[s' ->]]; [exists []; reflexivity|].
  rewrite split_go_cons.
  assert (H : String.prefix " " (String " " s') = true)
    by (apply prefix_true_iff; exists s'; reflexivity).
  rewrite H. eauto.
Qed.

Lemma name_unmatched_blank (sep x y : string) :
  all_chars name_char x = true -> unmatched (String " " sep) (x +:+ "'") y = true.
Proof.
  intros H. apply unmatched_first_char. rewrite all_chars_app.
  rewrite (all_chars_weaken _ _ _ name_char_not_blank H). reflexivity.
Qed.

Lemma quoted_name_segment (x y : string) :
  all_chars name_char x = true -> blank_led y ->
  exists v, split "File '" ("File '" +:+ (x +:+ "'") +:+ y) !! 1%nat
              = Some ((x +:+ "'") +:+ v) /\ blank_led v.
Proof.
  intros Hx Hy. rewrite (split_match "ile '" "F").
  destruct (split_hd_blank_led "File '" y Hy) as (v & vs & Hv & Hbl).
  rewrite split_run, Hv.
  - exists v. split; [reflexivity | assumption].
  - rewrite unmatched_app, append_cons, append_empty_l, (unmatched_marker x _ Hx).
    reflexivity.
Qed.

Lemma quoted_name_cut (x v : string) :
  all_chars name_char x = true -> blank_led v ->
  split " " ((x +:+ "'") +:+ v) !! 0%nat = Some (x +:+ "'").
Proof.
  intros Hx Hv. rewrite split_run by (apply name_unmatched_blank; assumption).
  destruct (split_blank_hd v Hv) as [r ->]. simpl. rewrite append_empty_r. reflexivity.
Qed.

Lemma verdict_line_parts (a b rest : string) :
  all_chars name_char a = true -> all_chars name_char b = true ->
  exists u us,
    split " and " (verdict_line a b rest)
      = ("File '" +:+ (a +:+ "'") +:+ "") :: ("File '" +:+ (b +:+ "'") +:+ u) :: us
    /\ blank_led u.
Proof.
  intros name_a name_b. unfold verdict_line.
  change ("' and File '" +:+ b +:+ "' " +:+ rest)
    with ("'" +:+ " and " +:+ "File '" +:+ b +:+ "'" +:+ " " +:+ rest).
  rewrite <- (append_assoc a "'"), <- (append_assoc "File '" (a +:+ "'")).
  rewrite split_run.
  2:{ rewrite unmatched_app, (name_unmatched_blank _ a _ name_a). reflexivity. }
  rewrite (split_match "and " " ").
  rewrite <- (append_assoc b "'"), <- (append_assoc "File '" (b +:+ "'")).
  rewrite split_run.
  2:{ rewrite unmatched_app, (name_unmatched_blank _ b _ name_b). reflexivity. }
  destruct (split_hd_blank_led " and " (" " +:+ rest)) as (u & us & Hu & Hbl);
    [right; eauto|].
  rewrite Hu. exists u, us. simpl prepend. rewrite !append_assoc.
  split; [reflexivity | assumption].
Qed.

Lemma quoted_name_alone (x : string) :
  all_chars name_char x = true ->
  split "File '" ("File '" +:+ (x +:+ "'") +:+ "") !! 1%nat = Some (x +:+ "'").
Proof.
  intros Hx. rewrite (split_match "ile '" "F"), split_run.
  - simpl. rewrite append_empty_r. reflexivity.
  - rewrite unmatched_app, append_cons, append_empty_l, (unmatched_marker x _ Hx).
    reflexivity.
Qed.

Lemma parse_verdict_line (a b rest : string) :
  all_chars name_char a = true -> all_chars name_char b = true ->
  parse_names (verdict_line a b rest) = Some (a, b).
Proof.
  intros name_a name_b.
  destruct (verdict_line_parts a b rest name_a name_b) as (u & us & Hparts & Hu).
  destruct (quoted_name_segment b u name_b Hu) as (v2 & Hseg2 & Hv2).
  unfold parse_names. rewrite Hparts. simpl lookup. simpl.
  rewrite (quoted_name_alone a name_a). simpl. rewrite Hseg2. simpl.
  rewrite (quoted_name_cut b v2 name_b Hv2). simpl.
  rewrite (rstrip_quote_name a name_a), (rstrip_quote_name b name_b). reflexivity.
Qed.

Lemma verdict_line_marked (a b rest : string) :
  contains "are duplicates" (verdict_line a b ("are duplicates" +:+ rest)) = true.
Proof.
  apply contains_true_iff. unfold verdict_line.
  exists ("File '" +:+ a +:+ "' and File '" +:+ b +:+ "' "), rest.
  rewrite !append_assoc. reflexivity.
Qed.

(** X1. A line in the format the prompt asks for, with two names free of
    blanks, quotes and line breaks, parses to exactly these two names,
    whatever follows the second one. *)
Theorem parse_names_verdict_line (a b rest : string) :
  all_chars name_char a = true -> all_chars name_char b = true ->
  parse_names (verdict_line a b rest) = Some (a, b).
Proof. apply parse_verdict_line. Qed.

Lemma rstrip_keep_last (P : ascii -> bool) (x : string) (c : ascii) :
  P c = false -> rstrip_with P (x +:+ String c "") = x +:+ String c "".
Proof.
  intros Hc. induction x as [|d x IH].
  - rewrite append_empty_l. simpl. rewrite Hc. reflexivity.
  - rewrite append_cons.
    change (rstrip_with P (String d (x +:+ String c "")))
      with (match rstrip_with P (x +:+ String c "") with
            | "" => if P d then "" else String d ""
            | String _ _ as r => String d r
            end).
    rewrite IH. destruct x; reflexivity.
Qed.

Lemma split_no_separator (c0 : ascii) (s : string) :
  all_chars (fun c => negb (Ascii.eqb c0 c)) s = true ->
  split (String c0 "") s = [s].
Proof.
  intros H. rewrite <- (append_empty_r s) at 1.
  rewrite split_run by (apply unmatched_first_char; assumption).
  simpl. rewrite append_empty_r. reflexivity.
Qed.

Lemma dict_set_fresh (k v : string) (d : dict) :
  ~ In k (keys d) -> dict_set k v d = d ++ [(k, v)].
Proof.
  induction d as [|[k' v'] d IH]; simpl; intros Hk; [reflexivity|].
  destruct (String.eqb k' k) eqn:E.
  - apply String.eqb_eq in E. exfalso. apply Hk. left. exact E.
  - rewrite IH; [reflexivity|]. intros Hin. apply Hk. right. exact Hin.
Qed.

Section RunMore.

Variable word_char : ascii -> bool.
Variable space_char : ascii -> bool.
Variable basename : string -> string.
Variable glob : gmap string node -> string -> list string.
Variable page_text : string -> string + string.
Variable chat : string -> string -> string + string.
Variable missing_error : string -> string.

Local Abbreviation collect_ := (collect word_char space_char page_text).
Local Abbreviation resolve_ := (resolve basename).
Local Abbreviation process_line_ := (process_line basename missing_error).
Local Abbreviation process_report_ := (process_report basename missing_error).
Local Abbreviation run_ :=
  (process_pdfs_for_duplicates word_char space_char basename glob page_text chat
     missing_error).
Local Abbreviation entry_of_ := (entry_of word_char space_char page_text).

(** X4. A report that nowhere holds the phrase [are duplicates] has no
    effect. *)
Theorem unmarked_report_has_no_effect (d : dict) (report : string) (w : world) :
  contains "are duplicates" report = false ->
  process_report_ d report w = w.
Proof.
  intros Hno. unfold process_report.
  assert (Hlines : Forall (fun line => contains "are duplicates" line = false)
                          (split nl report)).
  { apply List.Forall_forall. intros line Hin.
    destruct (contains "are duplicates" line) eqn:E; [|reflexivity].
    apply contains_true_iff in E. apply split_pieces_occur in Hin.
    pose proof (occurs_in_trans _ _ _ E Hin) as H.
    apply contains_true_iff in H. congruence. }
  induction Hlines as [|line lines Hl _ IH]; [reflexivity|].
  simpl. unfold process_line at 2. rewrite Hl. exact IH.
Qed.

Lemma process_line_requests (d : dict) (w : world) (line : string) :
  requests (trace (process_line_ d w line)) = requests (trace w).
Proof.
  unfold process_line.
  destruct (contains _ line); [|reflexivity].
  destruct (parse_names line) as [[file1 file2]|].
  - destruct (resolve_ d file2) as [p|]; [|reflexivity].
    destruct (negb (String.eqb p "") && path_exists w p); [|reflexivity].
    unfold delete_file. simpl.
    destruct (files w !! p) as [[|e]|]; simpl;
      rewrite !requests_app; simpl; rewrite !app_nil_r; reflexivity.
  - simpl. rewrite requests_app. simpl. rewrite app_nil_r. reflexivity.
Qed.

(** X6. A run sends one request to the model when the mapping is not
    empty and none otherwise. *)
Theorem one_request_per_run (pattern : string) (ns nw : option Z) (sleep : Z)
    (delete_dupes : bool) (fs : gmap string node) :
  requests (trace (snd (run_ pattern ns nw sleep delete_dupes fs))) =
    match fst (collect_ (glob fs pattern) ns nw) with
    | [] => []
    | _ :: _ => [comparison_prompt basename (fst (collect_ (glob fs pattern) ns nw))]
    end.
Proof.
  unfold process_pdfs_for_duplicates, check_duplicates_using_ai.
  destruct (collect_invariant word_char space_char page_text (glob fs pattern) ns nw)
    as (_ & _ & Hlogs).
  destruct (collect_ (glob fs pattern) ns nw) as [d logs]. simpl in Hlogs |- *.
  apply logs_have_no_requests in Hlogs.
  destruct d as [|entry d]; simpl.
  - rewrite requests_app, Hlogs. reflexivity.
  - destruct (chat _ _) as [e|content]; simpl.
    + rewrite requests_app, Hlogs. reflexivity.
    + assert (Hbase : requests (logs ++ [ChatCompletion system_message
                        (comparison_prompt basename (entry :: d))]
                        ++ [Log INFO ("Duplicate Report:" +:+ nl +:+ strip space_char content)])
                      = [comparison_prompt basename (entry :: d)]).
      { rewrite !requests_app, Hlogs. reflexivity. }
      destruct delete_dupes; simpl.
      * unfold process_report.
        apply (fold_left_invariant _
          (fun w => requests (trace w) = [comparison_prompt basename (entry :: d)])).
        -- simpl. rewrite <- app_assoc. exact Hbase.
        -- intros w line _ Hw. rewrite process_line_requests. exact Hw.
      * rewrite <- app_assoc. exact Hbase.
Qed.

Lemma process_line_cases (d : dict) (w : world) (line : string) :
  (files (process_line_ d w line) = files w /\
   removals (trace (process_line_ d w line)) = removals (trace w)) \/
  (exists p, path_exists w p = true /\
             process_line_ d w line = delete_file missing_error p w).
Proof.
  unfold process_line.
  destruct (contains _ line); [|left; auto].
  destruct (parse_names line) as [[file1 file2]|].
  - destruct (resolve_ d file2) as [p|]; [|left; auto].
    destruct (String.eqb p ""); simpl; [left; auto|].
    destruct (path_exists w p) eqn:E; [right; eauto | left; auto].
  - left. simpl. rewrite removals_app. simpl. rewrite app_nil_r. auto.
Qed.

Lemma delete_file_unremovable (p e : string) (w : world) :
  files w !! p = Some (Unremovable e) ->
  files (delete_file missing_error p w) = files w.
Proof. intros H. unfold delete_file. simpl. rewrite H. reflexivity. Qed.

Lemma path_outcome_start (fs : gmap string node) (q : string) (t : list event) :
  removals t = [] -> path_outcome fs q (World fs t).
Proof.
  intros Ht. split; [left; reflexivity|]. simpl. rewrite Ht. intros [].
Qed.

Lemma path_outcome_step (fs : gmap string node) (q : string) (d : dict)
    (w : world) (line : string) :
  path_outcome fs q w -> path_outcome fs q (process_line_ d w line).
Proof.
  intros [HA HB].
  destruct (process_line_cases d w line) as [[Hf Hr] | (p & Hex & ->)].
  - unfold path_outcome. rewrite Hf, Hr. split; assumption.
  - unfold path_outcome. rewrite delete_file_removals.
    destruct (decide (q = p)) as [->|Hne].
    + unfold path_exists in Hex.
      destruct (files w !! p) as [n|] eqn:Ew; [|discriminate].
      destruct HA as [Hsame | (Hreg & Hgone & _)]; [|congruence].
      destruct n as [|e].
      * assert (Hp : files (delete_file missing_error p w) !! p = None)
          by (apply delete_file_regular; exact Ew).
        split; [|intros _ _; exact Hp].
        right. split; [congruence|]. split; [exact Hp|].
        apply in_or_app. right. left. reflexivity.
      * rewrite (delete_file_unremovable p e w Ew), Ew.
        split; [left; exact Hsame|]. intros _ Hreg. congruence.
    + rewrite (delete_file_files missing_error p w q Hne). split.
      * destruct HA as [Hsame | (Hreg & Hgone & Hin)]; [left; exact Hsame|].
        right. split; [exact Hreg|]. split; [exact Hgone|].
        apply in_or_app. left. exact Hin.
      * intros Hin. apply HB. apply in_app_or in Hin as [Hin | [Heq | []]];
          [exact Hin | congruence].
Qed.

(** X5. Whatever the flag and the answer, a run leaves every path of the
    file table as it was, except regular files it handed to [os.remove]:
    these are gone. *)
Theorem run_only_removes_regular_files (pattern : string) (ns nw : option Z)
    (sleep : Z) (delete_dupes : bool) (fs : gmap string node) (q : string) :
  (files (snd (run_ pattern ns nw sleep delete_dupes fs)) !! q = fs !! q \/
   (fs !! q = Some RegularFile /\
    files (snd (run_ pattern ns nw sleep delete_dupes fs)) !! q = None /\
    In q (removals (trace (snd (run_ pattern ns nw sleep delete_dupes fs)))))) /\
  (In q (removals (trace (snd (run_ pattern ns nw sleep delete_dupes fs)))) ->
   fs !! q = Some RegularFile ->
   files (snd (run_ pattern ns nw sleep delete_dupes fs)) !! q = None).
Proof.
  change (path_outcome fs q (snd (run_ pattern ns nw sleep delete_dupes fs))).
  unfold process_pdfs_for_duplicates, check_duplicates_using_ai.
  destruct (collect_invariant word_char space_char page_text (glob fs pattern) ns nw)
    as (_ & _ & Hlogs).
  destruct (collect_ (glob fs pattern) ns nw) as [d logs]. simpl in Hlogs.
  apply logs_have_no_removals in Hlogs.
  assert (Hstart : forall t, removals t = [] -> path_outcome fs q (World fs (logs ++ t))).
  { intros t Ht. apply path_outcome_start. rewrite removals_app, Hlogs, Ht. reflexivity. }
  destruct d as [|entry d]; simpl; [apply Hstart; reflexivity|].
  destruct (chat _ _) as [e|content]; simpl; [apply Hstart; reflexivity|].
  assert (Hw0 : path_outcome fs q
            (World fs ((logs ++ [ChatCompletion system_message
                                   (comparison_prompt basename (entry :: d))])
                       ++ [Log INFO ("Duplicate Report:" +:+ nl
                                     +:+ strip space_char content)]))).
  { rewrite <- app_assoc. apply Hstart. reflexivity. }
  destruct delete_dupes; simpl; [|exact Hw0].
  unfold process_report.
  apply (fold_left_invariant _ (path_outcome fs q)); [exact Hw0|].
  intros w line _ Hw. apply path_outcome_step. exact Hw.
Qed.

Lemma collect_fold_fresh (ns nw : option Z) (l : list string) (d : dict)
    (t : list event) :
  List.NoDup l -> (forall p, In p l -> ~ In p (keys d)) ->
  fst (fold_left (collect_step word_char space_char page_text ns nw) l (d, t)) =
    d ++ omap (fun p => match page_text p with
                        | inr text =>
                            Some (p, get_text_snippet word_char space_char text ns nw)
                        | inl _ => None
                        end) l.
Proof.
  revert d t. induction l as [|p l IH]; intros d t Hnd Hfresh.
  - simpl. rewrite app_nil_r. reflexivity.
  - inversion Hnd as [|? ? Hp Hl]; subst. simpl.
    unfold extract_and_store_snippet, extract_with_pymupdf.
    destruct (page_text p) as [e|text]; simpl.
    + apply IH; [assumption|]. intros q Hq. apply Hfresh. right. exact Hq.
    + rewrite IH; [|assumption|].
      * rewrite dict_set_fresh by (apply Hfresh; left; reflexivity).
        rewrite <- app_assoc. reflexivity.
      * intros q Hq Hin. apply dict_set_keys_In in Hin as [->|Hin]; [contradiction|].
        apply (Hfresh q); [right|]; assumption.
Qed.

(** X8. For a listing without repetition the mapping is the list of the
    PDFs whose extraction succeeded, in listing order, each with the snippet
    of its first page. *)
Theorem collect_lists_successful_pdfs (pdf_files : list string) (ns nw : option Z) :
  List.NoDup pdf_files ->
  fst (collect word_char space_char page_text pdf_files ns nw) =
    omap (entry_of word_char space_char page_text ns nw) pdf_files.
Proof.
  intros Hnd. unfold collect.
  rewrite collect_fold_fresh; [|apply List.NoDup_filter; exact Hnd | intros p _ []].
  simpl. clear Hnd. induction pdf_files as [|p l IH]; [reflexivity|].
  simpl. unfold entry_of at 1. destruct (endswith p ".pdf"); simpl.
  - destruct (page_text p); simpl; first [exact IH | f_equal; exact IH].
  - exact IH.
Qed.

Lemma occurs_in_app_r (x s t : string) : occurs_in x s -> occurs_in x (s +:+ t).
Proof.
  intros (a & b & ->). exists a, (b +:+ t). rewrite !append_assoc. reflexivity.
Qed.

Lemma prompt_fold_occurs (d : dict) (acc x : string) :
  occurs_in x acc \/
  (exists file snippet, In (file, snippet) d /\
     x = "File '" +:+ basename file +:+ "': " +:+ snippet +:+ nl) ->
  occurs_in x
    (fold_left (fun acc '(file, snippet) =>
                  acc +:+ "File '" +:+ basename file +:+ "': " +:+ snippet +:+ nl)
               d acc).
Proof.
  revert acc. induction d as [|[f sn] d IH]; intros acc H.
  - destruct H as [H | (f & sn & [] & _)]. exact H.
  - simpl. apply IH. destruct H as [H | (f' & sn' & [Heq | Hin] & ->)].
    + left. apply occurs_in_app_r. exact H.
    + left. injection Heq as -> ->. exists acc, "". rewrite append_empty_r. reflexivity.
    + right. eauto.
Qed.

(** X7. The prompt holds one line [File '<basename>': <snippet>] for
    every entry of the mapping. *)
Theorem prompt_lists_every_entry (d : dict) (file snippet : string) :
  In (file, snippet) d ->
  contains ("File '" +:+ basename file +:+ "': " +:+ snippet +:+ nl)
           (comparison_prompt basename d) = true.
Proof.
  intros Hin. apply contains_true_iff. unfold comparison_prompt.
  apply occurs_in_app_r. apply prompt_fold_occurs. right. eauto.
Qed.

Lemma verdict_line_one_line (a b : string) :
  all_chars name_char a = true -> all_chars name_char b = true ->
  split nl (verdict_line a b "are duplicates.") = [verdict_line a b "are duplicates."].
Proof.
  intros Ha Hb. apply split_no_separator. unfold verdict_line.
  rewrite !all_chars_app.
  rewrite (all_chars_weaken _ _ _ name_char_not_newline Ha).
  rewrite (all_chars_weaken _ _ _ name_char_not_newline Hb). reflexivity.
Qed.

Lemma verdict_line_stripped (a b : string) :
  space_char "F" = false -> space_char "." = false ->
  strip space_char (verdict_line a b "are duplicates.")
    = verdict_line a b "are duplicates.".
Proof.
  intros HF Hdot. unfold strip, verdict_line.
  change ("File '" +:+ a +:+ "' and File '" +:+ b +:+ "' " +:+ "are duplicates.")
    with (String "F" ("ile '" +:+ a +:+ "' and File '" +:+ b +:+ "' are duplicates" +:+ ".")).
  simpl lstrip_with. rewrite HF.
  rewrite <- append_cons.
  replace (String "F" "ile '" +:+ a +:+ "' and File '" +:+ b +:+ "' are duplicates" +:+ ".")
    with ((String "F" "ile '" +:+ a +:+ "' and File '" +:+ b +:+ "' are duplicates") +:+ ".")
    by (rewrite !append_assoc; reflexivity).
  apply rstrip_keep_last. exact Hdot.
Qed.

(** X2. When the model answers with one line in the requested format whose
    second name resolves to a regular file of the batch, a run with deletion
    enabled removes exactly that file. *)
Theorem formatted_answer_deletes_second (pattern : string) (ns nw : option Z)
    (sleep : Z) (fs : gmap string node) (a b pb : string) :
  all_chars name_char a = true -> all_chars name_char b = true ->
  space_char "F" = false -> space_char "." = false ->
  resolve_ (fst (collect_ (glob fs pattern) ns nw)) b = Some pb ->
  fs !! pb = Some RegularFile ->
  chat system_message (comparison_prompt basename (fst (collect_ (glob fs pattern) ns nw)))
    = inr (verdict_line a b "are duplicates.") ->
  fst (run_ pattern ns nw sleep true fs) = Returned /\
  removals (trace (snd (run_ pattern ns nw sleep true fs))) = [pb] /\
  files (snd (run_ pattern ns nw sleep true fs)) = delete pb fs.
Proof.
  intros Ha Hb HF Hdot Hres Hreg Hchat.
  pose proof (resolve_Some _ _ _ _ Hres) as [Hkey _].
  pose proof (collect_keys_nonempty _ _ _ _ _ _ _ Hkey) as Hne.
  apply String.eqb_neq in Hne.
  unfold process_pdfs_for_duplicates, check_duplicates_using_ai.
  destruct (collect_invariant word_char space_char page_text (glob fs pattern) ns nw)
    as (_ & _ & Hlogs).
  destruct (collect_ (glob fs pattern) ns nw) as [d logs]. simpl in Hlogs, Hres, Hchat, Hkey.
  apply logs_have_no_removals in Hlogs.
  destruct d as [|entry d]; [destruct Hkey|].
  cbv zeta. rewrite Hchat. cbv iota beta.
  rewrite (verdict_line_stripped a b HF Hdot).
  unfold process_report. rewrite (verdict_line_one_line a b Ha Hb).
  cbn [fold_left]. unfold process_line.
  pose proof (verdict_line_marked a b ".") as Hmark.
  change ("are duplicates" +:+ ".") with "are duplicates." in Hmark.
  rewrite Hmark, (parse_verdict_line a b _ Ha Hb), Hres, Hne.
  unfold path_exists. cbn [emit files trace]. rewrite Hreg. cbn [negb andb].
  unfold delete_file. cbn [emit files trace]. rewrite Hreg. cbn [emit files trace fst snd].
  split; [reflexivity|]. split; [|reflexivity].
  rewrite !removals_app, Hlogs. reflexivity.
Qed.

End RunMore.

Section SnippetMore.

Variable word_char : ascii -> bool.
Variable space_char : ascii -> bool.

Local Abbreviation snippet_ := (get_text_snippet word_char space_char).

Lemma token_chars (w : string) :
  is_token word_char w = true ->
  all_chars (fun c => word_char c || Ascii.eqb c " ") w = true.
Proof.
  intros H. assert (Hw : word_only word_char w = true) by (destruct w; [discriminate | exact H]).
  clear H. induction w as [|c w IH]; [reflexivity|]. simpl in *.
  apply andb_prop in Hw as [-> Hw]. rewrite (IH Hw). reflexivity.
Qed.

Lemma join_tokens_chars (ws : list string) :
  Forall (fun t => is_token word_char t = true) ws ->
  all_chars (fun c => word_char c || Ascii.eqb c " ") (join " " ws) = true.
Proof.
  induction 1 as [|w rest Hw Hrest IH]; [reflexivity|].
  destruct rest as [|r rest]; [apply token_chars; exact Hw|].
  rewrite join_cons by discriminate.
  rewrite !all_chars_app, (token_chars _ Hw), IH.
  simpl. rewrite orb_true_r. reflexivity.
Qed.

Lemma slice_to_tokens (n : Z) (ws : list string) :
  Forall (fun t => is_token word_char t = true) ws ->
  Forall (fun t => is_token word_char t = true) (slice_to (Some n) ws).
Proof. intros H. unfold slice_to. destruct (0 <=? n)%Z; apply Forall_take; exact H. Qed.

(** X11. A word-count snippet holds nothing but word characters and
    blanks, whatever the count. *)
Theorem word_snippet_chars (text : string) (ns : option Z) (n : Z) :
  all_chars (fun c => word_char c || Ascii.eqb c " ")
            (get_text_snippet word_char space_char text ns (Some n)) = true.
Proof.
  unfold get_text_snippet. apply join_tokens_chars, slice_to_tokens, findall_word_tokens.
Qed.

(** X12. Taking the word-count snippet of a word-count snippet changes
    nothing. *)
Theorem word_snippet_idempotent (text : string) (ns ns' : option Z) (n : Z) :
  word_char " " = false -> (0 <= n)%Z ->
  get_text_snippet word_char space_char
    (get_text_snippet word_char space_char text ns (Some n)) ns' (Some n)
  = get_text_snippet word_char space_char text ns (Some n).
Proof.
  intros Hblank Hn. unfold get_text_snippet at 1.
  rewrite (word_snippet_tokens word_char space_char text ns n Hblank Hn).
  unfold get_text_snippet. rewrite !slice_to_nonneg by assumption.
  rewrite take_take, Nat.min_id. reflexivity.
Qed.

End SnippetMore.

Lemma split_absent (sep s : string) :
  contains sep s = false -> split sep s = [s].
Proof.
  unfold split. induction s as [|c s IH]; [reflexivity|]. intros H.
  change (contains sep (String c s))
    with (String.prefix sep (String c s) || contains sep s) in H.
  apply orb_false_elim in H as [Hp Hc].
  rewrite split_go_cons, Hp, (IH Hc). reflexivity.
Qed.

Lemma parse_names_malformed (line : string) :
  contains " and " line = false \/ contains "File '" line = false ->
  parse_names line = None.
Proof.
  intros [Hand | Hmark]; unfold parse_names.
  - rewrite (split_absent _ _ Hand). simpl.
    destruct (split "File '" line !! 1%nat); reflexivity.
  - destruct (split_go_pieces " and " line) as [(p0 & rest & t & Hsplit & Hpre) _].
    change (split_go " and " 0 line) with (split " and " line) in Hsplit.
    cbv zeta. rewrite Hsplit. simpl.
    assert (Hp0 : contains "File '" p0 = false).
    { destruct (contains "File '" p0) eqn:E; [|reflexivity].
      apply contains_true_iff in E.
      assert (Hocc : occurs_in "File '" line).
      { apply (occurs_in_trans _ p0); [exact E|]. exists "", t. exact Hpre. }
      apply contains_true_iff in Hocc. congruence. }
    rewrite (split_absent _ _ Hp0). reflexivity.
Qed.

(** X3. A candidate line that lacks the separator or the marker is logged as
    a parse error; nothing else happens. *)
Theorem malformed_candidate_logs_error (basename : string -> string)
    (missing_error : string -> string) (d : dict) (w : world) (line : string) :
  contains "are duplicates" line = true ->
  contains " and " line = false \/ contains "File '" line = false ->
  process_line basename missing_error d w line =
    emit (Log ERROR "Error parsing duplicate report or deleting files: list index out of range") w.
Proof.
  intros Hc Hbad. unfold process_line.
  rewrite Hc, (parse_names_malformed line Hbad). reflexivity.
Qed.

(** X9. For a count [n >= 0] the word tokens of the word-count snippet are
    exactly the first [n] word tokens of the text. *)
Theorem word_snippet_retokenized (word_char space_char : ascii -> bool)
    (text : string) (ns : option Z) (n : Z) :
  word_char " "%char = false -> (0 <= n)%Z ->
  findall_word word_char (get_text_snippet word_char space_char text ns (Some n))
    = take (Z.to_nat n) (findall_word word_char text).
Proof. apply word_snippet_tokens. Qed.

(** X10. For a count [n >= 1] the sentence-count snippet splits back into
    exactly the first [n] sentences of the stripped text. *)
Theorem sentence_snippet_resplit (word_char space_char : ascii -> bool)
    (text : string) (n : Z) :
  space_char " "%char = true -> (1 <= n)%Z ->
  split_sentences space_char (get_text_snippet word_char space_char text (Some n) None)
    = take (Z.to_nat n) (split_sentences space_char (strip space_char text)).
Proof.
  intros Hblank Hn.
  replace n with (Z.of_nat (S (Z.to_nat n - 1))) at 1 by lia.
  rewrite (sentence_snippet_pieces word_char space_char text _ Hblank).
  f_equal. lia.
Qed.

Lemma replace_go_cons (old new : string) (k : nat) (c : ascii) (s : string) :
  replace_go old new k (String c s) =
    match k with
    | S k' => replace_go old new k' s
    | O => if String.prefix old (String c s)
           then new +:+ replace_go old new (String.length old - 1) s
           else String c (replace_go old new 0 s)
    end.
Proof. reflexivity. Qed.

Lemma replace_go_all_chars (P : ascii -> bool) (old new s : string) (k : nat) :
  all_chars P new = true -> all_chars P s = true ->
  all_chars P (replace_go old new k s) = true.
Proof.
  intros Hnew. revert k. induction s as [|c s IH]; intros k Hs; [reflexivity|].
  simpl in Hs. apply andb_prop in Hs as [Hc Hs].
  rewrite replace_go_cons. destruct k; [|apply IH; exact Hs].
  destruct (String.prefix old (String c s)).
  - rewrite all_chars_app, Hnew, IH by exact Hs. reflexivity.
  - simpl. rewrite Hc, IH by exact Hs. reflexivity.
Qed.

Lemma replace_all_chars (P : ascii -> bool) (old new s : string) :
  all_chars P s = true -> all_chars P new = true ->
  all_chars P (replace old new s) = true.
Proof. intros Hs Hnew. apply replace_go_all_chars; assumption. Qed.

Lemma replace_char_removes (c : ascii) (new s : string) :
  all_chars (fun x => negb (Ascii.eqb c x)) new = true ->
  all_chars (fun x => negb (Ascii.eqb c x)) (replace (String c "") new s) = true.
Proof.
  intros Hnew. unfold replace. induction s as [|d s IH]; [reflexivity|].
  rewrite replace_go_cons, prefix_cons, prefix_empty. simpl String.length.
  destruct (Ascii.eqb c d) eqn:E.
  - rewrite all_chars_app, Hnew. exact IH.
  - simpl. rewrite E. exact IH.
Qed.

Lemma lstrip_all_chars (P Q : ascii -> bool) (s : string) :
  all_chars P s = true -> all_chars P (lstrip_with Q s) = true.
Proof.
  induction s as [|c s IH]; [reflexivity|]. intros H. simpl.
  destruct (Q c); [|exact H]. simpl in H. apply andb_prop in H as [_ H]. auto.
Qed.

Lemma rstrip_all_chars (P Q : ascii -> bool) (s : string) :
  all_chars P s = true -> all_chars P (rstrip_with Q s) = true.
Proof.
  induction s as [|c s IH]; [reflexivity|]. intros H. simpl in H |- *.
  apply andb_prop in H as [Hc Hs]. specialize (IH Hs).
  destruct (rstrip_with Q s).
  - destruct (Q c); simpl; [reflexivity | rewrite Hc; reflexivity].
  - simpl in IH |- *. rewrite Hc. exact IH.
Qed.

Lemma strip_chars_all_chars (P : ascii -> bool) (chars s : string) :
  all_chars P s = true -> all_chars P (strip_chars chars s) = true.
Proof. intros H. apply rstrip_all_chars, lstrip_all_chars, H. Qed.

Lemma replaced_drops_reserved (filename : string) (c : ascii) :
  In c reserved_chars ->
  all_chars (fun x => negb (Ascii.eqb c x))
    (fold_left (fun filename char => replace (String char "") " - " filename)
               invalid_chars filename) = true.
Proof.
  intros Hc. simpl fold_left. simpl in Hc.
  repeat (destruct Hc as [<- | Hc];
          [repeat first [ apply replace_char_removes; reflexivity
                        | apply replace_all_chars; [|reflexivity] ] |]).
  destruct Hc.
Qed.

(** X13. No reserved character survives sanitising. *)
Theorem sanitize_filename_drops_reserved (filename : string) (c : ascii) :
  In c reserved_chars ->
  all_chars (fun x => negb (Ascii.eqb c x)) (sanitize_filename filename) = true.
Proof.
  intros Hc. unfold sanitize_filename.
  do 3 (apply replace_all_chars; [|simpl in Hc; intuition (subst; reflexivity)]).
  apply strip_chars_all_chars, replaced_drops_reserved, Hc.
Qed.

Lemma lstrip_head_ok (P : ascii -> bool) (s : string) :
  head_ok P (lstrip_with P s) = true.
Proof.
  induction s as [|c s IH]; [reflexivity|]. simpl.
  destruct (P c) eqn:E; [exact IH | simpl; rewrite E; reflexivity].
Qed.

Lemma rstrip_head_ok (P : ascii -> bool) (s : string) :
  head_ok P s = true -> head_ok P (rstrip_with P s) = true.
Proof.
  destruct s as [|c s]; [reflexivity|]. simpl. intros H.
  apply negb_true_iff in H.
  destruct (rstrip_with P s); [rewrite H|]; simpl; rewrite H; reflexivity.
Qed.

Lemma rstrip_last_ok (P : ascii -> bool) (s : string) :
  last_ok P (rstrip_with P s) = true.
Proof.
  induction s as [|c s IH]; [reflexivity|]. simpl.
  destruct (rstrip_with P s) as [|d r].
  - destruct (P c) eqn:E; [reflexivity | simpl; rewrite E; reflexivity].
  - exact IH.
Qed.

Lemma head_ok_lstrip (P : ascii -> bool) (s : string) :
  head_ok P s = true -> lstrip_with P s = s.
Proof.
  destruct s as [|c s]; [reflexivity|]. simpl. intros H.
  apply negb_true_iff in H. rewrite H. reflexivity.
Qed.

Lemma last_ok_rstrip (P : ascii -> bool) (s : string) :
  last_ok P s = true -> rstrip_with P s = s.
Proof.
  induction s as [|c s IH]; [reflexivity|]. intros H.
  change (rstrip_with P (String c s))
    with (match rstrip_with P s with
          | "" => if P c then "" else String c ""
          | String _ _ as r => String c r
          end).
  destruct s as [|d s].
  - simpl in H |- *. apply negb_true_iff in H. rewrite H. reflexivity.
  - rewrite IH by exact H. reflexivity.
Qed.

Lemma squeeze_head_ok (P : ascii -> bool) (s : string) :
  P " "%char = true -> head_ok P s = true -> head_ok P (replace "  " " " s) = true.
Proof.
  intros Hblank. destruct s as [|c s]; [reflexivity|]. simpl head_ok. intros H.
  unfold replace. rewrite replace_go_cons, prefix_cons.
  destruct (Ascii.eqb " " c) eqn:E.
  - apply Ascii.eqb_eq in E. subst c. rewrite Hblank in H. discriminate.
  - exact H.
Qed.

Lemma squeeze_go_nonempty (c : ascii) (s : string) :
  replace_go "  " " " 0 (String c s) <> "".
Proof.
  rewrite replace_go_cons. destruct (String.prefix "  " (String c s)); discriminate.
Qed.

Lemma last_ok_cons (P : ascii -> bool) (c : ascii) (s : string) :
  s <> "" -> last_ok P (String c s) = last_ok P s.
Proof. destruct s; [congruence | reflexivity]. Qed.

Lemma squeeze_go_last_ok (P : ascii -> bool) (s : string) :
  P " "%char = true ->
  forall k, k = 0 \/ (k = 1 /\ exists s', s = String " " s') ->
  last_ok P s = true -> last_ok P (replace_go "  " " " k s) = true.
Proof.
  intros Hblank. induction s as [|c s IH]; intros k Hk H; [reflexivity|].
  assert (Htail : s <> "" -> last_ok P s = true).
  { intros Hs. rewrite <- (last_ok_cons P c s Hs). exact H. }
  rewrite replace_go_cons. destruct Hk as [-> | (-> & s' & Heq)].
  - destruct (String.prefix "  " (String c s)) eqn:Epre.
    + apply prefix_true_iff in Epre as [t Ht].
      rewrite !append_cons, append_empty_l in Ht. injection Ht as -> ->.
      change (String.length "  " - 1) with 1.
      assert (Hs : last_ok P (String " " t) = true) by (apply Htail; discriminate).
      assert (Ht : t <> "").
      { intros ->. simpl in Hs. rewrite Hblank in Hs. discriminate. }
      rewrite append_cons, append_empty_l, last_ok_cons.
      * apply IH; [right; eauto | exact Hs].
      * rewrite replace_go_cons. destruct t as [|d t]; [congruence|].
        apply squeeze_go_nonempty.
    + destruct s as [|d s]; [exact H|].
      rewrite last_ok_cons by apply squeeze_go_nonempty.
      apply IH; [left; reflexivity | apply Htail; discriminate].
  - injection Heq as -> ->.
    destruct s' as [|d s'].
    + simpl in H. rewrite Hblank in H. discriminate.
    + apply IH; [left; reflexivity | apply Htail; discriminate].
Qed.

Lemma squeeze_last_ok (P : ascii -> bool) (s : string) :
  P " "%char = true -> last_ok P s = true -> last_ok P (replace "  " " " s) = true.
Proof. intros Hb H. apply squeeze_go_last_ok; auto. Qed.

(** X14. A sanitised name has nothing left to strip: it neither starts nor
    ends with a blank, a dash, a dot or an underscore. *)
Theorem sanitize_filename_stripped (filename : string) :
  strip_chars " -._" (sanitize_filename filename) = sanitize_filename filename.
Proof.
  assert (Hhead : head_ok (has_char " -._") (sanitize_filename filename) = true).
  { unfold sanitize_filename, strip_chars.
    do 3 (apply squeeze_head_ok; [reflexivity|]).
    apply rstrip_head_ok, lstrip_head_ok. }
  assert (Hlast : last_ok (has_char " -._") (sanitize_filename filename) = true).
  { unfold sanitize_filename, strip_chars.
    do 3 (apply squeeze_last_ok; [reflexivity|]).
    apply rstrip_last_ok. }
  unfold strip_chars at 1. rewrite (head_ok_lstrip _ _ Hhead). apply last_ok_rstrip, Hlast.
Qed.

Lemma all_chars_forallb (P : ascii -> ascii -> bool) (l : list ascii) (s : string) :
  (forall c, In c l -> all_chars (P c) s = true) ->
  all_chars (fun x => forallb (fun c => P c x) l) s = true.
Proof.
  induction s as [|x s IH]; [reflexivity|]. intros H. simpl.
  rewrite IH.
  - rewrite andb_true_r. apply forallb_forall. intros c Hc.
    specialize (H c Hc). simpl in H. apply andb_prop in H as [H _]. exact H.
  - intros c Hc. specialize (H c Hc). simpl in H. apply andb_prop in H as [_ H]. exact H.
Qed.

Lemma all_chars_both (P Q R : ascii -> bool) (s : string) :
  (forall c, P c = true -> Q c = true -> R c = true) ->
  all_chars P s = true -> all_chars Q s = true -> all_chars R s = true.
Proof.
  intros HR. induction s as [|c s IH]; [reflexivity|]. simpl. intros HP HQ.
  apply andb_prop in HP as [Hp HP]. apply andb_prop in HQ as [Hq HQ].
  rewrite (HR c Hp Hq), (IH HP HQ). reflexivity.
Qed.

Lemma lstrip_all (P : ascii -> bool) (s : string) :
  all_chars P s = true -> lstrip_with P s = "".
Proof.
  induction s as [|c s IH]; [reflexivity|]. simpl. intros H.
  apply andb_prop in H as [-> H]. auto.
Qed.

Lemma junk_not_reserved (c : ascii) :
  junk_char c = true ->
  forallb (fun r => negb (Ascii.eqb r c)) reserved_chars = true ->
  has_char " -._" c = true.
Proof.
  destruct c as [[] [] [] [] [] [] [] []]; vm_compute; intros; congruence.
Qed.

(** X15. A title made only of characters that are replaced or stripped
    sanitises to the empty name. *)
Theorem sanitize_filename_of_junk (filename : string) :
  all_chars junk_char filename = true -> sanitize_filename filename = "".
Proof.
  intros Hjunk. unfold sanitize_filename, strip_chars.
  rewrite lstrip_all; [reflexivity|].
  apply (all_chars_both junk_char
           (fun x => forallb (fun r => negb (Ascii.eqb r x)) reserved_chars)).
  - exact junk_not_reserved.
  - simpl fold_left. repeat (apply replace_all_chars; [|reflexivity]). exact Hjunk.
  - apply all_chars_forallb. intros c Hc. apply replaced_drops_reserved, Hc.
Qed.

Lemma replace_absent (old new s : string) :
  contains old s = false -> replace old new s = s.
Proof.
  unfold replace. induction s as [|c s IH]; [reflexivity|]. intros H.
  change (contains old (String c s))
    with (String.prefix old (String c s) || contains old s) in H.
  apply orb_false_elim in H as [Hp Hc].
  rewrite replace_go_cons, Hp, (IH Hc). reflexivity.
Qed.

Lemma contains_char_absent (c : ascii) (s : string) :
  all_chars (fun x => negb (Ascii.eqb c x)) s = true ->
  contains (String c "") s = false.
Proof.
  induction s as [|d s IH]; [reflexivity|]. simpl all_chars. intros H.
  apply andb_prop in H as [Hd Hs]. apply negb_true_iff in Hd.
  change (contains (String c "") (String d s))
    with (String.prefix (String c "") (String d s) || contains (String c "") s).
  rewrite prefix_cons, Hd, (IH Hs). reflexivity.
Qed.

Lemma valid_char_differs (c x : ascii) :
  In c invalid_chars -> valid_char x = true -> negb (Ascii.eqb c x) = true.
Proof.
  intros Hc Hx. unfold valid_char in Hx. apply negb_true_iff in Hx.
  apply negb_true_iff. destruct (Ascii.eqb c x) eqn:E; [|reflexivity].
  apply Ascii.eqb_eq in E. subst x.
  assert (H : existsb (Ascii.eqb c) invalid_chars = true).
  { apply existsb_exists. exists c. split; [exact Hc | apply Ascii.eqb_refl]. }
  congruence.
Qed.

(** X16. A title without invalid characters and without a double blank,
    with nothing to strip at its ends, is returned as it is. *)
Theorem sanitize_filename_keeps_clean (filename : string) :
  all_chars valid_char filename = true ->
  strip_chars " -._" filename = filename ->
  contains "  " filename = false ->
  sanitize_filename filename = filename.
Proof.
  intros Hvalid Hstrip Hblanks. unfold sanitize_filename.
  assert (Hfold : fold_left (fun filename char => replace (String char "") " - " filename)
                            invalid_chars filename = filename).
  { assert (Hall : forall c, In c invalid_chars ->
                     replace (String c "") " - " filename = filename).
    { intros c Hc. apply replace_absent, contains_char_absent.
      apply (all_chars_weaken valid_char); [|exact Hvalid].
      intros x. apply valid_char_differs, Hc. }
    revert Hall. generalize invalid_chars. intros l. induction l as [|c l IH]; intros Hall.
    - reflexivity.
    - simpl. rewrite (Hall c) by (left; reflexivity). apply IH.
      intros c' Hc'. apply Hall. right. exact Hc'. }
  rewrite Hfold, Hstrip, !(replace_absent _ _ _ Hblanks). reflexivity.
Qed.

Section RenamerFacts.

Variable word_char : ascii -> bool.
Variable space_char : ascii -> bool.
Variable sent_tokenize : string -> string + list string.
Variable pdfminer_text : gmap string node -> string -> string + string.
Variable pymupdf_pages : gmap string node -> string -> list string * option string.
Variable chat : string -> string -> string -> Z -> string + string.
Variable repr_list : list string -> string.
Variable path_split : string -> string * string.
Variable path_join : string -> string -> string.
Variable os_rename : gmap string node -> string -> string -> rename_result.
Variable os_remove : gmap string node -> string -> string + gmap string node.
Variable os_startfile : gmap string node -> string -> option string.
Variable time_sleep : Z -> option string.
Variable glob : gmap string node -> string -> list string.

Local Abbreviation snippets_of_ := (AutoRename.snippets_of word_char sent_tokenize).
Local Abbreviation pymupdf_snippets_ := (AutoRename.pymupdf_snippets word_char sent_tokenize).
Local Abbreviation extract_text_snippet_ :=
  (AutoRename.extract_text_snippet word_char sent_tokenize pdfminer_text pymupdf_pages).
Local Abbreviation conflict_loop_ :=
  (AutoRename.conflict_loop path_join os_rename os_remove os_startfile).
Local Abbreviation sleep_for_ := (AutoRename.sleep_for time_sleep).
Local Abbreviation rename_pdf_ :=
  (AutoRename.rename_pdf path_split path_join os_rename os_remove os_startfile).
Local Abbreviation process_file_ :=
  (AutoRename.process_file word_char space_char sent_tokenize pdfminer_text
     pymupdf_pages chat repr_list path_split path_join os_rename os_remove
     os_startfile time_sleep).
Local Abbreviation process_files_ :=
  (AutoRename.process_files word_char space_char sent_tokenize pdfminer_text
     pymupdf_pages chat repr_list path_split path_join os_rename os_remove
     os_startfile time_sleep).
Local Abbreviation process_pdfs_ :=
  (AutoRename.process_pdfs word_char space_char sent_tokenize pdfminer_text
     pymupdf_pages chat repr_list path_split path_join os_rename os_remove
     os_startfile time_sleep glob).

Lemma snippets_of_words (pages : list string) (ns : option Z) (n : Z) :
  snippets_of_ pages ns (Some n) =
    inr (map (fun page => join " " (slice_to (Some n) (findall_word word_char page)))
             pages).
Proof.
  induction pages as [|page pages IH]; [reflexivity|].
  simpl. rewrite IH. reflexivity.
Qed.

(** X17. With a word count, a text delivered by pdfminer gives one snippet
    per form-feed separated page, at least one, and PyMuPDF is not used. *)
Theorem pdfminer_text_gives_a_snippet_per_page (fs : gmap string node)
    (file_path text : string) (ns : option Z) (n : Z) :
  pdfminer_text fs file_path = inr text ->
  extract_text_snippet_ fs file_path ns (Some n) =
    (map (fun page => join " " (slice_to (Some n) (findall_word word_char page)))
         (split form_feed text), []) /\
  fst (extract_text_snippet_ fs file_path ns (Some n)) <> [].
Proof.
  intros Htext. unfold AutoRename.extract_text_snippet.
  rewrite Htext, snippets_of_words. split; [reflexivity|]. simpl.
  unfold split. destruct (split_go form_feed 0 text) eqn:E; [|discriminate].
  destruct (split_go_nonempty _ _ _ E).
Qed.

Lemma pymupdf_snippets_quiet (pages : list string) (err : option string)
    (ns nw : option Z) :
  filter touching (snd (pymupdf_snippets_ pages err ns nw)) = [].
Proof.
  induction pages as [|text pages IH]; simpl.
  - destruct err; reflexivity.
  - destruct (AutoRename.get_text_snippet _ _ _ _ _); [reflexivity|].
    destruct (pymupdf_snippets_ pages err ns nw). exact IH.
Qed.

Lemma extract_text_snippet_quiet (fs : gmap string node) (file_path : string)
    (ns nw : option Z) :
  filter touching (snd (extract_text_snippet_ fs file_path ns nw)) = [].
Proof.
  assert (Hfb : filter touching
                  (snd (AutoRename.extract_with_pymupdf word_char sent_tokenize
                          pymupdf_pages fs file_path ns nw)) = []).
  { unfold AutoRename.extract_with_pymupdf. destruct (pymupdf_pages fs file_path).
    apply pymupdf_snippets_quiet. }
  unfold AutoRename.extract_text_snippet.
  destruct (AutoRename.extract_with_pymupdf _ _ _ _ _ _ _) as [l evs].
  destruct (pdfminer_text fs file_path) as [e|text]; [exact Hfb|].
  destruct (snippets_of_ _ _ _); [exact Hfb | reflexivity].
Qed.

Lemma sleep_for_quiet (sleep : Z) (w : rn_world) :
  rn_files (snd (sleep_for_ sleep w)) = rn_files w /\
  rn_stdin (snd (sleep_for_ sleep w)) = rn_stdin w /\
  filter touching (rn_trace (snd (sleep_for_ sleep w))) = filter touching (rn_trace w).
Proof.
  unfold AutoRename.sleep_for. destruct (time_sleep sleep); simpl; [auto|].
  rewrite filter_app. simpl. rewrite app_nil_r. auto.
Qed.

Lemma process_file_dry (ns nw : option Z) (system_prompt additional_prompt : string)
    (max_tokens sleep : Z) (model file_path : string) (w : rn_world) :
  let r := process_file_ ns nw system_prompt additional_prompt max_tokens true
                         sleep model file_path w in
  rn_files (snd r) = rn_files w /\ rn_stdin (snd r) = rn_stdin w /\
  filter touching (rn_trace (snd r)) = filter touching (rn_trace w).
Proof.
  unfold AutoRename.process_file.
  destruct (endswith file_path ".pdf"); [|simpl; auto].
  cbn [rn_emit rn_files rn_stdin rn_trace].
  set (ex := if truthy nw then extract_text_snippet_ (rn_files w) file_path None nw
             else extract_text_snippet_ (rn_files w) file_path ns None).
  assert (Hq : filter touching (snd ex) = []).
  { unfold ex. destruct (truthy nw); apply extract_text_snippet_quiet. }
  destruct ex as [snippet evs]. simpl in Hq.
  destruct snippet as [|s snippet].
  - cbv zeta.
    match goal with |- context [sleep_for_ sleep ?W] =>
      destruct (sleep_for_quiet sleep W) as (H1 & H2 & H3) end.
    rewrite H1, H2, H3. simpl. rewrite !filter_app, Hq. simpl. rewrite !app_nil_r. auto.
  - unfold AutoRename.generate_creative_title. cbn [rn_emit rn_files rn_stdin rn_trace].
    destruct (chat _ _ _ _) as [e|title].
    + simpl. rewrite !filter_app, Hq. simpl. rewrite !app_nil_r. auto.
    + unfold AutoRename.rename_pdf. destruct (path_split file_path) as [directory original].
      cbv zeta iota beta.
      match goal with |- context [sleep_for_ sleep ?W] =>
        destruct (sleep_for_quiet sleep W) as (H1 & H2 & H3) end.
      rewrite H1, H2, H3. simpl. rewrite !filter_app, Hq. simpl. rewrite !app_nil_r. auto.
Qed.

(** X18. In dry mode a run renames and removes nothing, opens no file and
    reads nothing from the terminal, whatever the model answers. *)
Theorem dry_run_touches_nothing (file_pattern : string) (ns nw : option Z)
    (system_prompt additional_prompt : string) (max_tokens sleep : Z)
    (model : string) (w : rn_world) :
  let r := process_pdfs_ file_pattern ns nw system_prompt additional_prompt
                         max_tokens true sleep model w in
  rn_files (snd r) = rn_files w /\ rn_stdin (snd r) = rn_stdin w /\
  filter touching (rn_trace (snd r)) = filter touching (rn_trace w).
Proof.
  unfold AutoRename.process_pdfs. generalize (glob (rn_files w) file_pattern).
  intros paths. revert w. induction paths as [|p paths IH]; intros w; [simpl; auto|].
  simpl.
  pose proof (process_file_dry ns nw system_prompt additional_prompt max_tokens
                sleep model p w) as Hstep.
  destruct (process_file_ ns nw system_prompt additional_prompt max_tokens true
              sleep model p w) as [[| e |] w'] eqn:E; simpl in Hstep; try exact Hstep.
  destruct Hstep as (Hf & Hs & Ht). specialize (IH w'). simpl in IH.
  rewrite Hf, Hs, Ht in IH. exact IH.
Qed.

(** X19. A word count of 0 counts as no word count: the run is the one
    obtained with the sentence policy. *)
Theorem zero_word_count_is_ignored (file_pattern : string) (ns : option Z)
    (system_prompt additional_prompt : string) (max_tokens : Z) (dry_mode : bool)
    (sleep : Z) (model : string) (w : rn_world) :
  process_pdfs_ file_pattern ns (Some 0%Z) system_prompt additional_prompt
                max_tokens dry_mode sleep model w =
  process_pdfs_ file_pattern ns None system_prompt additional_prompt
                max_tokens dry_mode sleep model w.
Proof.
  unfold AutoRename.process_pdfs. generalize (glob (rn_files w) file_pattern).
  intros paths. revert w. induction paths as [|p paths IH]; intros w; [reflexivity|].
  simpl.
  assert (Hstep : process_file_ ns (Some 0%Z) system_prompt additional_prompt max_tokens
                                dry_mode sleep model p w =
                  process_file_ ns None system_prompt additional_prompt max_tokens
                                dry_mode sleep model p w) by reflexivity.
  rewrite Hstep.
  destruct (process_file_ ns None system_prompt additional_prompt max_tokens
              dry_mode sleep model p w) as [[| e |] w']; [apply IH | reflexivity..].
Qed.

(** X20. Paths that do not end in [.pdf] are passed over without any
    effect. *)
Theorem other_files_are_passed_over (ns nw : option Z)
    (system_prompt additional_prompt : string) (max_tokens : Z) (dry_mode : bool)
    (sleep : Z) (model : string) (paths : list string) (w : rn_world) :
  process_files_ ns nw system_prompt additional_prompt max_tokens dry_mode sleep
                 model paths w =
  process_files_ ns nw system_prompt additional_prompt max_tokens dry_mode sleep
                 model (List.filter (fun p => endswith p ".pdf") paths) w.
Proof.
  revert w. induction paths as [|p paths IH]; intros w; [reflexivity|].
  simpl. destruct (endswith p ".pdf") eqn:E.
  - simpl. destruct (process_file_ _ _ _ _ _ _ _ _ p w) as [[| e |] w'];
      [apply IH | reflexivity..].
  - unfold AutoRename.process_file at 1. rewrite E. apply IH.
Qed.

(** X21. At a name clash, answers the prompt does not know only make it
    ask again; when [s] follows, the file table is as before and the prompt
    has been shown once per answer read. *)
Theorem skip_after_unknown_answers (directory original_filename file_path
    new_file_path : string) (unknown rest : list string)
    (fs : gmap string node) (t : list rn_event) :
  Forall (fun todo => unknown_answer todo = true) unknown ->
  conflict_loop_ directory original_filename file_path new_file_path
                 (unknown ++ "s" :: rest) fs t =
    (RnReturned,
     RnWorld fs rest (t ++ repeat (RnInput conflict_prompt) (S (length unknown)))).
Proof.
  intros H. revert t. induction H as [|todo unknown Htodo _ IH]; intros t.
  - reflexivity.
  - simpl app. simpl AutoRename.conflict_loop.
    unfold unknown_answer in Htodo. apply negb_true_iff in Htodo.
    repeat (apply orb_false_elim in Htodo as [Htodo ?]).
    repeat match goal with E : String.eqb todo _ = false |- _ => rewrite E; clear E end.
    rewrite IH. simpl. rewrite <- app_assoc. reflexivity.
Qed.

End RenamerFacts.

(** ** Closed instances of the further properties *)

Lemma parse_names_verdict_line_witness :
  all_chars name_char "A.pdf" = true /\ all_chars name_char "B.pdf" = true /\
  parse_names answer_ab = Some ("A.pdf", "B.pdf").
Proof.
  split; [reflexivity|]. split; [reflexivity|].
  apply (parse_names_verdict_line "A.pdf" "B.pdf" "are duplicates."); reflexivity.
Defined.

Lemma formatted_answer_deletes_second_witness :
  resolve posix_basename ab_dict "B.pdf" = Some "/d/B.pdf" /\
  two_files !! "/d/B.pdf" = Some RegularFile /\
  removals (trace (snd (run_with ["/d/A.pdf"; "/d/B.pdf"] same_text answer_ab true two_files)))
    = ["/d/B.pdf"].
Proof.
  split; [reflexivity|]. split; [reflexivity|].
  apply (formatted_answer_deletes_second ascii_word ascii_space posix_basename
           (fun _ _ => ["/d/A.pdf"; "/d/B.pdf"]) same_text (fun _ _ => inr answer_ab)
           posix_missing "/d/*.pdf" (Some 1%Z) None 3%Z two_files "A.pdf" "B.pdf" "/d/B.pdf");
    reflexivity.
Defined.

Lemma malformed_candidate_logs_error_witness :
  contains "are duplicates" report_plain = true /\
  contains "File '" report_plain = false /\
  logged ERROR (trace (process_line posix_basename posix_missing ab_dict (World two_files []) report_plain))
    = ["Error parsing duplicate report or deleting files: list index out of range"].
Proof.
  split; [reflexivity|]. split; [reflexivity|].
  rewrite (malformed_candidate_logs_error posix_basename posix_missing ab_dict (World two_files [])
             report_plain); [reflexivity | reflexivity | right; reflexivity].
Defined.

Lemma unmarked_report_has_no_effect_witness :
  contains "are duplicates" "No two files look alike." = false /\
  process_report posix_basename posix_missing ab_dict "No two files look alike." (World two_files [])
    = World two_files [].
Proof.
  split; [reflexivity|].
  apply (unmarked_report_has_no_effect posix_basename posix_missing ab_dict
           "No two files look alike." (World two_files [])).
  reflexivity.
Defined.

Lemma prompt_lists_every_entry_witness :
  In ("/d/B.pdf", "Hello world.") ab_dict /\
  contains ("File 'B.pdf': Hello world." +:+ nl) (comparison_prompt posix_basename ab_dict)
    = true.
Proof.
  assert (Hin : In ("/d/B.pdf", "Hello world.") ab_dict) by (right; left; reflexivity).
  split; [exact Hin|].
  exact (prompt_lists_every_entry posix_basename ab_dict "/d/B.pdf" "Hello world." Hin).
Defined.

Lemma collect_lists_successful_pdfs_witness :
  List.NoDup ["/d/A.pdf"; "/d/notes.txt"; "/d/B.pdf"] /\
  fst (collect ascii_word ascii_space same_text
         ["/d/A.pdf"; "/d/notes.txt"; "/d/B.pdf"] (Some 1%Z) None)
    = [("/d/A.pdf", "Hello world."); ("/d/B.pdf", "Hello world.")].
Proof.
  assert (Hnd : List.NoDup ["/d/A.pdf"; "/d/notes.txt"; "/d/B.pdf"]).
  { repeat constructor; simpl; intros H;
      repeat (destruct H as [H | H]; [discriminate H|]); exact H. }
  split; [exact Hnd|].
  rewrite (collect_lists_successful_pdfs ascii_word ascii_space same_text _
             (Some 1%Z) None Hnd).
  reflexivity.
Defined.

Lemma word_snippet_retokenized_witness :
  ascii_word " " = false /\
  findall_word ascii_word
    (get_text_snippet ascii_word ascii_space "Hi there.  How are you? Fine." None (Some 3%Z))
    = ["Hi"; "there"; "How"].
Proof.
  split; [reflexivity|].
  rewrite (word_snippet_retokenized ascii_word ascii_space
             "Hi there.  How are you? Fine." None 3%Z); [reflexivity | reflexivity | lia].
Defined.

Lemma sentence_snippet_resplit_witness :
  ascii_space " " = true /\
  split_sentences ascii_space
    (get_text_snippet ascii_word ascii_space " Hi there.  How are you? Fine." (Some 2%Z) None)
    = ["Hi there."; "How are you?"].
Proof.
  split; [reflexivity|].
  rewrite (sentence_snippet_resplit ascii_word ascii_space
             " Hi there.  How are you? Fine." 2%Z); [reflexivity | reflexivity | lia].
Defined.

Lemma word_snippet_idempotent_witness :
  ascii_word " " = false /\
  get_text_snippet ascii_word ascii_space
    (get_text_snippet ascii_word ascii_space "Hi there.  How are you?" None (Some 3%Z))
    None (Some 3%Z)
  = "Hi there How".
Proof.
  split; [reflexivity|].
  rewrite (word_snippet_idempotent ascii_word ascii_space
             "Hi there.  How are you?" None None 3%Z); [reflexivity | reflexivity | lia].
Defined.

Lemma sanitize_filename_drops_reserved_witness :
  In "?"%char reserved_chars /\
  all_chars (fun x => negb (Ascii.eqb "?" x)) (sanitize_filename "What is AI? A Survey") = true.
Proof.
  assert (Hin : In "?"%char reserved_chars) by (simpl; tauto).
  split; [exact Hin|].
  exact (sanitize_filename_drops_reserved "What is AI? A Survey" "?" Hin).
Defined.

Lemma sanitize_filename_of_junk_witness :
  all_chars junk_char "?? --" = true /\ sanitize_filename "?? --" = "".
Proof.
  split; [reflexivity|]. apply (sanitize_filename_of_junk "?? --"). reflexivity.
Defined.

Lemma sanitize_filename_keeps_clean_witness :
  all_chars valid_char "Deep Learning Survey" = true /\
  sanitize_filename "Deep Learning Survey" = "Deep Learning Survey".
Proof.
  split; [reflexivity|].
  apply (sanitize_filename_keeps_clean "Deep Learning Survey"); reflexivity.
Defined.

Lemma pdfminer_text_gives_a_snippet_per_page_witness :
  two_page_text ∅ "/d/A.pdf" = inr ("Deep learning for cats" +:+ form_feed +:+ "Second page") /\
  fst (AutoRename.extract_text_snippet ascii_word no_tokenizer two_page_text no_pages
         ∅ "/d/A.pdf" None (Some 2%Z))
    = ["Deep learning"; "Second page"].
Proof.
  split; [reflexivity|].
  destruct (pdfminer_text_gives_a_snippet_per_page ascii_word no_tokenizer two_page_text
              no_pages ∅ "/d/A.pdf" _ None 2%Z eq_refl) as [Heq _].
  rewrite Heq. reflexivity.
Defined.

Lemma skip_after_unknown_answers_witness :
  Forall (fun todo => unknown_answer todo = true) ["x"; "yes"] /\
  fst (AutoRename.conflict_loop slash_join always_clashes refuses_removal opens_fine
         "/d" "A.pdf" "/d/A.pdf" "/d/Title.pdf" ["x"; "yes"; "s"; "later"] two_files [])
    = RnReturned.
Proof.
  assert (H : Forall (fun todo => unknown_answer todo = true) ["x"; "yes"]).
  { repeat constructor. }
  split; [exact H|].
  change ["x"; "yes"; "s"; "later"] with (["x"; "yes"] ++ "s" :: ["later"]).
  rewrite (skip_after_unknown_answers slash_join always_clashes refuses_removal opens_fine
             "/d" "A.pdf" "/d/A.pdf" "/d/Title.pdf" ["x"; "yes"] ["later"] two_files [] H).
  reflexivity.
Defined.
